(** * gotests/process: the command-line driver of the test generator

    A shallow embedding of package [process] of ppltools/gotests.  The
    repository holds two editions of the driver:

    - [src/gotests/process/process.go], which writes its status lines with
      [fmt.Fprintf] to the [out] writer it is given (module [ProcessGo]);
    - [src/unnamed/part_000], which reports through the [cmsg] package
      (module [Part000]).

    The engine ([gotests.GenerateTests]), [regexp.Compile],
    [ioutil.WriteFile] and the method [TestName] are not part of the
    driver; they are taken as an interface ([External]).  A run is a
    function from the state of the world to the list of effects it
    performs, the new state of the world and the way it ends. *)

From Stdlib Require Import String Ascii List ZArith Bool Lia.
Import ListNotations.
Local Open Scope string_scope.

(** ** Go values *)

(** An [error] value is identified with the text of its [Error()] method;
    a nil error is [None] in an [option error]. *)
Definition error : Type := string.

Definition bytes : Type := list Byte.byte.

(** [os.FileMode], an unsigned 32-bit integer; only the nine permission
    bits are used here. *)
Definition FileMode : Type := Z.

(** A Go octal literal, most significant digit first. *)
Definition octal (digits : list Z) : Z :=
  fold_left (fun acc d => 8 * acc + d)%Z digits 0%Z.

(** The nine permission bits in the [ls -l] notation. *)
Definition perm_string (m : FileMode) : string :=
  let bit (i : Z) (c : string) := if Z.testbit m i then c else "-" in
  bit 8%Z "r" ++ bit 7%Z "w" ++ bit 6%Z "x" ++
  bit 5%Z "r" ++ bit 4%Z "w" ++ bit 3%Z "x" ++
  bit 2%Z "r" ++ bit 1%Z "w" ++ bit 0%Z "x".

Definition esc : string := String (ascii_of_nat 27) "".
Definition tab : string := String (ascii_of_nat 9) "".
Definition nl : string := String (ascii_of_nat 10) "".

(** ** The engine's types (package [gotests]) *)

Module gotests.

Record Options (Regexp : Type) : Type := {
  Only : option Regexp;
  Exclude : option Regexp;
  Exported : bool;
  PrintInputs : bool;
  Subtests : bool;
  AllowError : bool
}.

(** The engine hands out pointers to its results and to their functions;
    they are taken to be non-nil. *)
Record GeneratedTest (Function : Type) : Type := {
  Path : string;
  Functions : list Function;
  Output : bytes
}.

Arguments Only {Regexp} _.
Arguments Exclude {Regexp} _.
Arguments Exported {Regexp} _.
Arguments PrintInputs {Regexp} _.
Arguments Subtests {Regexp} _.
Arguments AllowError {Regexp} _.
Arguments Build_Options {Regexp} _ _ _ _ _ _.
Arguments Path {Function} _.
Arguments Functions {Function} _.
Arguments Output {Function} _.
Arguments Build_GeneratedTest {Function} _ _ _.

End gotests.

(** ** The driver's options (the same struct in both editions) *)

Record Options : Type := {
  OnlyFuncs : string;
  ExclFuncs : string;
  ExportedFuncs : bool;
  AllFuncs : bool;
  PrintInputs : bool;
  Subtests : bool;
  WriteOutput : bool;
  AllowError : bool
}.

(** [&Options{}]: every field at its zero value. *)
Definition zeroOptions : Options :=
  {| OnlyFuncs := ""; ExclFuncs := ""; ExportedFuncs := false;
     AllFuncs := false; PrintInputs := false; Subtests := false;
     WriteOutput := false; AllowError := false |}.

(** ** What the driver calls but does not define *)

Class External : Type := {
  Regexp : Type;
  Function : Type;
  Writer : Type;
  World : Type;
  regexp_Compile : string -> Regexp + error;
  TestName : Function -> string;
  GenerateTests :
    string -> gotests.Options Regexp -> World ->
    (list (gotests.GeneratedTest Function) * option error) * World;
  ioutil_WriteFile :
    string -> bytes -> FileMode -> World -> option error * World
}.

(** An [io.Writer] interface value as [Run] receives it: nil, or a writer.
    [Writer] is the type of the writers themselves; their [Write] is taken
    to return. *)
Definition io_Writer {X : External} : Type := option Writer.

(** ** Effects *)

(** An operand of a formatting call. *)
Inductive Arg : Type :=
| AString (s : string)
| AError (e : error).

(** The three reporting functions of package [cmsg] the driver uses. *)
Inductive CmsgFn : Type := Die | Warn | Info.

Inductive Event {X : External} : Type :=
| Fprintf (out : Writer) (format : string) (args : list Arg)
| Write (out : Writer) (data : bytes)
| CmsgSetStderr (out : io_Writer)
| Cmsg (fn : CmsgFn) (format : string) (args : list Arg)
| CallGenerateTests (path : string) (opt : gotests.Options Regexp)
| CallWriteFile (path : string) (data : bytes) (perm : FileMode).

(** How a call ends: it returns, the process exits, or it panics. *)
Inductive Outcome (A : Type) : Type :=
| Returned (a : A)
| Exited
| Panicked.

Arguments Returned {A} a.
Arguments Exited {A}.
Arguments Panicked {A}.

Definition Go {X : External} (A : Type) : Type :=
  World -> list Event * World * Outcome A.

Definition trace {X : External} {A} (r : list Event * World * Outcome A) :
  list Event := fst (fst r).

Definition world {X : External} {A} (r : list Event * World * Outcome A) :
  World := snd (fst r).

Definition outcome {X : External} {A} (r : list Event * World * Outcome A) :
  Outcome A := snd r.

Definition ret {X : External} {A} (a : A) : Go A :=
  fun w => ([], w, Returned a).

Definition bind {X : External} {A B} (m : Go A) (k : A -> Go B) : Go B :=
  fun w =>
    match m w with
    | (t1, w1, Returned a) =>
        match k a w1 with
        | (t2, w2, r) => ((t1 ++ t2)%list, w2, r)
        end
    | (t1, w1, Exited) => (t1, w1, Exited)
    | (t1, w1, Panicked) => (t1, w1, Panicked)
    end.

Declare Scope go_scope.
Delimit Scope go_scope with go.
Notation "x <- m ;; k" := (bind m (fun x => k))
  (at level 100, m at next level, right associativity) : go_scope.
Notation "m ;; k" := (bind m (fun _ => k))
  (at level 100, right associativity) : go_scope.
Local Open Scope go_scope.

Definition emit {X : External} (e : Event) : Go unit :=
  fun w => ([e], w, Returned tt).

(** A nil pointer dereference. *)
Definition panic {X : External} {A} : Go A :=
  fun w => ([], w, Panicked).

(** [fmt.Fprintf(out, format, args...)]: it formats and calls [out.Write]
    once, which is a nil dereference when [out] is nil. *)
Definition fmt_Fprintf {X : External} (out : io_Writer) (format : string)
  (args : list Arg) : Go unit :=
  match out with
  | Some o => emit (Fprintf o format args)
  | None => panic
  end.

(** [out.Write(data)] *)
Definition Writer_Write {X : External} (out : io_Writer) (data : bytes) :
  Go unit :=
  match out with
  | Some o => emit (Write o data)
  | None => panic
  end.

(** [os.Exit]. *)
Definition exit {X : External} {A} : Go A :=
  fun w => ([], w, Exited).

(** [if c { m }] *)
Definition when {X : External} (c : bool) (m : Go unit) : Go unit :=
  if c then m else ret tt.

(** [for _, x := range l { body x }] *)
Fixpoint forEach {X : External} {A} (l : list A) (body : A -> Go unit) :
  Go unit :=
  match l with
  | [] => ret tt
  | x :: xs => body x ;; forEach xs body
  end.

Definition call_GenerateTests {X : External}
  (path : string) (opt : gotests.Options Regexp) :
  Go (list (gotests.GeneratedTest Function) * option error) :=
  fun w =>
    let (r, w') := GenerateTests path opt w in
    ([CallGenerateTests path opt], w', Returned r).

Definition call_WriteFile {X : External}
  (path : string) (data : bytes) (perm : FileMode) : Go (option error) :=
  fun w =>
    let (r, w') := ioutil_WriteFile path data perm w in
    ([CallWriteFile path data perm], w', Returned r).

(** A status report is one formatted message, that is one call of
    [fmt.Fprintf] or of [cmsg], whatever text it prints; the calls to the
    engine and to the file system and the raw copy of the generated code
    are not. *)
Definition is_status {X : External} (e : Event) : bool :=
  match e with
  | Fprintf _ _ _ => true
  | Cmsg _ _ _ => true
  | _ => false
  end.

Definition status_lines {X : External} (t : list Event) : list Event :=
  filter is_status t.

(** ** src/gotests/process/process.go *)

Module ProcessGo.

Section Driver.

Context {X : External}.

Definition newFilePerm : FileMode := octal [0; 6; 4; 4]%Z.
Definition msgFmt : string := esc ++ "[%sm%s" ++ esc ++ "[m%s" ++ nl.
Definition msgInfo : string := "0;32".
Definition msgError : string := "0;31".

Definition parseRegexp (s : string) : option Regexp * option error :=
  if String.eqb s "" then (None, None)
  else
    match regexp_Compile s with
    | inr err => (None, Some err)
    | inl re => (Some re, None)
    end.

Definition parseOptions (out : io_Writer) (opt : option Options) :
  Go (option (gotests.Options Regexp)) :=
  match opt with
  | None => panic
  | Some opt =>
      if String.eqb (OnlyFuncs opt) "" && String.eqb (ExclFuncs opt) "" &&
         negb (ExportedFuncs opt) && negb (AllFuncs opt)
      then
        fmt_Fprintf out msgFmt
          [AString msgError; AString ("[ERROR]" ++ tab);
           AString "-> please specify either the -only, -excl, -export, or -all flag"] ;;
        ret None
      else
        let '(onlyRE, err) := parseRegexp (OnlyFuncs opt) in
        match err with
        | Some err =>
            fmt_Fprintf out msgFmt
              [AString msgError; AString ("[ERROR]" ++ tab);
               AString ("-> invalid -only regex:" ++ err)] ;;
            ret None
        | None =>
            let '(exclRE, err) := parseRegexp (ExclFuncs opt) in
            match err with
            | Some err =>
                fmt_Fprintf out msgFmt
                  [AString msgError; AString ("[ERROR]" ++ tab);
                   AString ("-> invalid -excl regex:" ++ err)] ;;
                ret None
            | None =>
                ret (Some {| gotests.Only := onlyRE;
                             gotests.Exclude := exclRE;
                             gotests.Exported := ExportedFuncs opt;
                             gotests.PrintInputs := PrintInputs opt;
                             gotests.Subtests := Subtests opt;
                             gotests.AllowError := AllowError opt |})
            end
        end
  end.

Definition outputTest (out : io_Writer) (t : gotests.GeneratedTest Function)
  (writeOutput : bool) : Go unit :=
  let rest : Go unit :=
    forEach (gotests.Functions t) (fun f =>
      fmt_Fprintf out msgFmt
        [AString msgInfo; AString ("[INFO]" ++ tab);
         AString ("-> generated: " ++ TestName f)]) ;;
    when (negb writeOutput) (Writer_Write out (gotests.Output t)) in
  if writeOutput then
    err <- call_WriteFile (gotests.Path t) (gotests.Output t) newFilePerm ;;
    match err with
    | Some err => fmt_Fprintf out msgFmt [AString msgError; AError err]
    | None => rest
    end
  else rest.

Definition generateTests (out : io_Writer) (path : string)
  (writeOutput : bool) (opt : gotests.Options Regexp) : Go unit :=
  r <- call_GenerateTests path opt ;;
  let '(gts, err) := r in
  match err with
  | Some err => fmt_Fprintf out err []
  | None =>
      if (length gts =? 0)%nat then
        fmt_Fprintf out msgFmt
          [AString msgInfo; AString ("[INFO]" ++ tab);
           AString ("-> no tests generated for: " ++ path)]
      else forEach gts (fun t => outputTest out t writeOutput)
  end.

(** The loop [for _, path := range args] of [Run]. *)
Definition Run_paths (out : io_Writer) (writeOutput : bool)
  (opt : gotests.Options Regexp) (args : list string) : Go unit :=
  forEach args (fun path => generateTests out path writeOutput opt).

Definition Run (out : io_Writer) (args : list string)
  (opts : option Options) : Go unit :=
  let opts := match opts with None => zeroOptions | Some o => o end in
  opt <- parseOptions out (Some opts) ;;
  match opt with
  | None => ret tt
  | Some opt =>
      if (length args =? 0)%nat then
        fmt_Fprintf out msgFmt
          [AString msgError; AString ("[ERROR]" ++ tab);
           AString "-> please specify a file or directory containing the source"]
      else Run_paths out (WriteOutput opts) opt args
  end.

End Driver.

End ProcessGo.

(** ** src/unnamed/part_000 *)

Module Part000.

Section Driver.

Context {X : External}.

(** Package [cmsg] is a library outside this repository.  [cmsg.Die]
    reports its message as an error on the sink and ends the process;
    [cmsg.Warn] and [cmsg.Info] report theirs and return. *)
Definition cmsg_Die (format : string) (args : list Arg) : Go unit :=
  emit (Cmsg Die format args) ;; exit.

Definition cmsg_Warn (format : string) (args : list Arg) : Go unit :=
  emit (Cmsg Warn format args).

Definition cmsg_Info (format : string) (args : list Arg) : Go unit :=
  emit (Cmsg Info format args).

(** [if err != nil { k err }] *)
Definition whenErr (err : option error) (k : error -> Go unit) : Go unit :=
  match err with
  | Some e => k e
  | None => ret tt
  end.

Definition newFilePerm : FileMode := octal [0; 6; 4; 4]%Z.

Definition parseRegexp (s : string) : option Regexp * option error :=
  if String.eqb s "" then (None, None)
  else
    match regexp_Compile s with
    | inr err => (None, Some err)
    | inl re => (Some re, None)
    end.

Definition parseOptions (opt : option Options) :
  Go (option (gotests.Options Regexp)) :=
  match opt with
  | None => panic
  | Some opt =>
      when (String.eqb (OnlyFuncs opt) "" && String.eqb (ExclFuncs opt) "" &&
            negb (ExportedFuncs opt) && negb (AllFuncs opt))
        (cmsg_Die "-> please specify either the -only, -excl, -export, or -all flag" []) ;;
      let '(onlyRE, err) := parseRegexp (OnlyFuncs opt) in
      whenErr err (fun err =>
        cmsg_Die "-> invalid -only regex: %s" [AError err]) ;;
      let '(exclRE, err) := parseRegexp (ExclFuncs opt) in
      whenErr err (fun err =>
        cmsg_Die "-> invalid -excl regex: %s" [AError err]) ;;
      ret (Some {| gotests.Only := onlyRE;
                   gotests.Exclude := exclRE;
                   gotests.Exported := ExportedFuncs opt;
                   gotests.PrintInputs := PrintInputs opt;
                   gotests.Subtests := Subtests opt;
                   gotests.AllowError := AllowError opt |})
  end.

Definition outputTest (t : gotests.GeneratedTest Function)
  (writeOutput : bool) : Go unit :=
  when writeOutput
    (err <- call_WriteFile (gotests.Path t) (gotests.Output t) newFilePerm ;;
     whenErr err (fun err =>
       cmsg_Die "-> write file %s failed: %s"
         [AString (gotests.Path t); AError err])) ;;
  forEach (gotests.Functions t) (fun f =>
    cmsg_Info "-> generated: %s" [AString (TestName f)]).

Definition generateTests (path : string) (writeOutput : bool)
  (opt : gotests.Options Regexp) : Go unit :=
  r <- call_GenerateTests path opt ;;
  let '(gts, err) := r in
  whenErr err (fun err =>
    cmsg_Die "-> generate test failed: %s" [AError err]) ;;
  when (length gts =? 0)%nat
    (cmsg_Warn "-> no tests generated for: %s" [AString path]) ;;
  forEach gts (fun t => outputTest t writeOutput).

(** The loop [for _, path := range args] of [Run]. *)
Definition Run_paths (writeOutput : bool) (opt : gotests.Options Regexp)
  (args : list string) : Go unit :=
  forEach args (fun path => generateTests path writeOutput opt).

Definition Run (out : io_Writer) (args : list string)
  (opts : option Options) : Go unit :=
  emit (CmsgSetStderr out) ;;
  let opts := match opts with None => zeroOptions | Some o => o end in
  opt <- parseOptions (Some opts) ;;
  match opt with
  | None => ret tt
  | Some opt =>
      when (length args =? 0)%nat
        (cmsg_Die "-> please specify a file or directory containing the source" []) ;;
      Run_paths (WriteOutput opts) opt args
  end.

End Driver.

End Part000.

(** ** The vocabulary of the specification *)

(** No filtering mode is selected. *)
Definition no_mode (o : Options) : Prop :=
  OnlyFuncs o = "" /\ ExclFuncs o = "" /\
  ExportedFuncs o = false /\ AllFuncs o = false.

(** The three filtering modes and how many of them an [Options] selects. *)
Definition mode_pair (o : Options) : bool :=
  negb (String.eqb (OnlyFuncs o) "") || negb (String.eqb (ExclFuncs o) "").

Definition modes_set (o : Options) : nat :=
  (if mode_pair o then 1 else 0) +
  (if ExportedFuncs o then 1 else 0) +
  (if AllFuncs o then 1 else 0).

(** The pattern [s] is given and [regexp.Compile] rejects it with [e]. *)
Definition bad_pattern {X : External} (s : string) (e : error) : Prop :=
  s <> "" /\ regexp_Compile s = inr e.

(** The pattern [s] is absent or compiles. *)
Definition good_pattern {X : External} (s : string) : Prop :=
  s = "" \/ exists re, regexp_Compile s = inl re.

(** A configuration error: no filtering mode, or a pattern that does not
    compile. *)
Definition config_error {X : External} (o : Options) : Prop :=
  no_mode o \/
  (exists e, bad_pattern (OnlyFuncs o) e) \/
  (exists e, bad_pattern (ExclFuncs o) e).

(** The options pass validation. *)
Definition valid_options {X : External} (o : Options) : Prop :=
  ~ no_mode o /\ good_pattern (OnlyFuncs o) /\ good_pattern (ExclFuncs o).

(** The options [parseOptions] hands to the engine once validation has
    passed. *)
Definition engineOptions {X : External} (o : Options) :
  gotests.Options Regexp :=
  {| gotests.Only := fst (ProcessGo.parseRegexp (OnlyFuncs o));
     gotests.Exclude := fst (ProcessGo.parseRegexp (ExclFuncs o));
     gotests.Exported := ExportedFuncs o;
     gotests.PrintInputs := PrintInputs o;
     gotests.Subtests := Subtests o;
     gotests.AllowError := AllowError o |}.

(** If the effect is a call of the engine, its options are [opt]. *)
Definition calls_engine_with {X : External} (opt : gotests.Options Regexp)
  (e : Event) : Prop :=
  match e with
  | CallGenerateTests _ opt' => opt' = opt
  | _ => True
  end.

(** The status lines of process.go. *)
Definition info_line {X : External} (out : Writer) (msg : string) : Event :=
  Fprintf out ProcessGo.msgFmt
    [AString ProcessGo.msgInfo; AString ("[INFO]" ++ tab); AString msg].

Definition error_line {X : External} (out : Writer) (msg : string) : Event :=
  Fprintf out ProcessGo.msgFmt
    [AString ProcessGo.msgError; AString ("[ERROR]" ++ tab); AString msg].

(** A status line reported as an error: printed in the error colour by
    process.go, passed to [cmsg.Die] by part_000. *)
Definition is_error_line {X : External} (e : Event) : bool :=
  match e with
  | Fprintf _ _ (AString colour :: _) => String.eqb colour ProcessGo.msgError
  | Cmsg Die _ _ => true
  | _ => false
  end.

(** A computation that always returns to its caller. *)
Definition returns {X : External} (m : Go unit) : Prop :=
  forall w, outcome (m w) = Returned tt.

(** Every effect of a computation satisfies [P]. *)
Definition trace_all {X : External} {A} (P : Event -> Prop) (m : Go A) :
  Prop :=
  forall w, Forall P (trace (m w)).

(** If the effect writes a file, it does so with mode [perm]. *)
Definition writes_with_mode {X : External} (perm : FileMode) (e : Event) :
  Prop :=
  match e with
  | CallWriteFile _ _ m => m = perm
  | _ => True
  end.

(** ** A concrete world for the examples

    Patterns compile unless they are ["("]; a compiled pattern is kept as
    its source.  The engine fails on ["bad.go"], finds nothing to test in
    ["empty.go"] and produces one test file with the tests of [Add] and
    [Sub] for any other path.  The file system refuses to write below
    ["/ro/"] and otherwise records what is written. *)

Definition demo_output : bytes := [Byte.x70; Byte.x6b; Byte.x67].

Definition demo_GenerateTests (path : string) (opt : gotests.Options string)
  (w : list (string * bytes * FileMode)) :
  (list (gotests.GeneratedTest string) * option error) *
  list (string * bytes * FileMode) :=
  if String.eqb path "bad.go" then (([], Some "parse error"), w)
  else if String.eqb path "empty.go" then (([], None), w)
  else
    (([{| gotests.Path := path ++ "_test.go";
          gotests.Functions := ["Add"; "Sub"];
          gotests.Output := demo_output |}], None), w).

Definition demo_WriteFile (path : string) (data : bytes) (perm : FileMode)
  (w : list (string * bytes * FileMode)) :
  option error * list (string * bytes * FileMode) :=
  if String.prefix "/ro/" path then (Some "read-only file system", w)
  else (None, (path, data, perm) :: w).

Definition demo : External := {|
  Regexp := string;
  Function := string;
  Writer := string;
  World := list (string * bytes * FileMode);
  regexp_Compile := fun s =>
    if String.eqb s "(" then inr "missing closing )" else inl s;
  TestName := fun f => "Test" ++ f;
  GenerateTests := demo_GenerateTests;
  ioutil_WriteFile := demo_WriteFile
|}.

Definition demo_opts (writeOutput allowError : bool) : Options :=
  {| OnlyFuncs := ""; ExclFuncs := ""; ExportedFuncs := false;
     AllFuncs := true; PrintInputs := false; Subtests := false;
     WriteOutput := writeOutput; AllowError := allowError |}.

Definition demo_gopt (allowError : bool) : gotests.Options string :=
  {| gotests.Only := None; gotests.Exclude := None;
     gotests.Exported := false; gotests.PrintInputs := false;
     gotests.Subtests := false; gotests.AllowError := allowError |}.

(** Exported-only and all-functions selected together. *)
Definition two_modes : Options :=
  {| OnlyFuncs := ""; ExclFuncs := ""; ExportedFuncs := true;
     AllFuncs := true; PrintInputs := false; Subtests := false;
     WriteOutput := false; AllowError := false |}.

(** An inclusion pattern that does not compile. *)
Definition bad_only : Options :=
  {| OnlyFuncs := "("; ExclFuncs := ""; ExportedFuncs := false;
     AllFuncs := false; PrintInputs := false; Subtests := false;
     WriteOutput := true; AllowError := true |}.

(** ** The text a run prints *)

Definition arg_text (a : Arg) : string :=
  match a with
  | AString s => s
  | AError e => e
  end.

(** [fmt.Sprintf] on formats made of plain text, [%s] and [%%].  A [%s]
    prints a string operand as it is and an error operand by the text of
    its [Error()]; a [%s] with no operand left prints [%!s(MISSING)].
    Other verbs and flags, a [%] that ends the format and operands left
    over are not covered: the result is [None]. *)
Fixpoint fmt_Sprintf (format : string) (args : list Arg) : option string :=
  match format with
  | EmptyString =>
      match args with
      | [] => Some ""
      | _ :: _ => None
      end
  | String c rest =>
      if Ascii.eqb c "%" then
        match rest with
        | EmptyString => None
        | String v rest' =>
            if Ascii.eqb v "s" then
              match args with
              | a :: args' =>
                  option_map (append (arg_text a)) (fmt_Sprintf rest' args')
              | [] =>
                  option_map (append "%!s(MISSING)") (fmt_Sprintf rest' [])
              end
            else if Ascii.eqb v "%" then
              option_map (String "%") (fmt_Sprintf rest' args)
            else None
        end
      else option_map (String c) (fmt_Sprintf rest args)
  end.

(** The text a run of process.go leaves on its writer: what each
    [fmt.Fprintf] formats and what each [out.Write] copies, one after the
    other. *)
Fixpoint out_text {X : External} (t : list Event) : option string :=
  match t with
  | [] => Some ""
  | Fprintf _ format args :: t' =>
      match fmt_Sprintf format args, out_text t' with
      | Some s, Some r => Some (s ++ r)
      | _, _ => None
      end
  | Write _ data :: t' =>
      option_map (append (string_of_list_byte data)) (out_text t')
  | _ :: t' => out_text t'
  end.

(** The lines of a text: the pieces between line ends, and the piece after
    the last line end when it is not empty. *)
Fixpoint text_lines_from (cur : string) (s : string) : list string :=
  match s with
  | EmptyString => if String.eqb cur "" then [] else [cur]
  | String c rest =>
      if Ascii.eqb c (ascii_of_nat 10)
      then cur :: text_lines_from "" rest
      else text_lines_from (cur ++ String c "") rest
  end.

Definition text_lines (s : string) : list string := text_lines_from "" s.

(** A text without [%]. *)
Fixpoint no_percent (s : string) : bool :=
  match s with
  | EmptyString => true
  | String c rest => negb (Ascii.eqb c "%") && no_percent rest
  end.

(** ** Views of a run *)

(** The calls of the engine in a run, in order. *)
Definition engine_calls {X : External} (t : list Event) :
  list (string * gotests.Options Regexp) :=
  flat_map (fun e => match e with
                     | CallGenerateTests p opt => [(p, opt)]
                     | _ => []
                     end) t.

(** The files a run asks the file system to write, in order. *)
Definition file_writes {X : External} (t : list Event) :
  list (string * bytes * FileMode) :=
  flat_map (fun e => match e with
                     | CallWriteFile p d m => [(p, d, m)]
                     | _ => []
                     end) t.

Definition is_die {X : External} (e : Event) : bool :=
  match e with
  | Cmsg Die _ _ => true
  | _ => false
  end.

Definition no_file_write {X : External} (e : Event) : Prop :=
  match e with
  | CallWriteFile _ _ _ => False
  | _ => True
  end.

Definition no_stream_copy {X : External} (e : Event) : Prop :=
  match e with
  | Write _ _ => False
  | _ => True
  end.

(** Whatever the effect prints, it prints on [out]. *)
Definition prints_on {X : External} (out : Writer) (e : Event) : Prop :=
  match e with
  | Fprintf o _ _ => o = out
  | Write o _ => o = out
  | _ => True
  end.

(** The effect goes through [cmsg], the engine or the file system; it
    neither prints directly nor redirects the sink of [cmsg]. *)
Definition through_cmsg {X : External} (e : Event) : Prop :=
  match e with
  | Fprintf _ _ _ => False
  | Write _ _ => False
  | CmsgSetStderr _ => False
  | _ => True
  end.

(** A computation that does not panic, exits only right after a
    [cmsg.Die] and reports no [cmsg.Die] otherwise. *)
Definition dies_last {X : External} {A}
  (r : list Event * World * Outcome A) : Prop :=
  match outcome r with
  | Returned _ => Forall (fun e => is_die e = false) (trace r)
  | Exited =>
      exists t format a,
        trace r = (t ++ [Cmsg Die format a])%list /\
        Forall (fun e => is_die e = false) t
  | Panicked => False
  end.

(** What [generateTests] of process.go prints for one generated file when
    WriteOutput is off. *)
Definition printed {X : External} (out : Writer)
  (t : gotests.GeneratedTest Function) : list Event :=
  (map (fun f => info_line out ("-> generated: " ++ TestName f))
       (gotests.Functions t) ++ [Write out (gotests.Output t)])%list.

(** What [generateTests] of part_000 reports for one generated file when
    WriteOutput is off. *)
Definition reported {X : External} (t : gotests.GeneratedTest Function) :
  list Event :=
  map (fun f => Cmsg Info "-> generated: %s" [AString (TestName f)])
      (gotests.Functions t).

(** The request to write one generated file. *)
Definition write_of {X : External} (perm : FileMode)
  (t : gotests.GeneratedTest Function) : string * bytes * FileMode :=
  (gotests.Path t, gotests.Output t, perm).

(** The calls a run makes to the engine and to the file system, in
    order. *)
Definition is_call {X : External} (e : Event) : bool :=
  match e with
  | CallGenerateTests _ _ => true
  | CallWriteFile _ _ _ => true
  | _ => false
  end.

Definition calls {X : External} (t : list Event) : list Event :=
  filter is_call t.

(** [G] does what [P] does whenever [P] returns: the same calls, the same
    world. *)
Definition follows {X : External} (G P : Go unit) : Prop :=
  forall w tp w',
    P w = (tp, w', Returned tt) ->
    exists tg, G w = (tg, w', Returned tt) /\ calls tg = calls tp.

(** ** A second concrete world

    As [demo], except for the engine: for ["pkg"] it produces three test
    files, the second of them below ["/ro/"]; for ["partial.go"] it
    returns one test file together with an error. *)

Definition demo_file (path : string) (fn : string) :
  gotests.GeneratedTest string :=
  {| gotests.Path := path;
     gotests.Functions := [fn];
     gotests.Output := demo_output |}.

Definition pkg_GenerateTests (path : string) (opt : gotests.Options string)
  (w : list (string * bytes * FileMode)) :
  (list (gotests.GeneratedTest string) * option error) *
  list (string * bytes * FileMode) :=
  if String.eqb path "pkg" then
    (([demo_file "a_test.go" "A"; demo_file "/ro/b_test.go" "B";
       demo_file "c_test.go" "C"], None), w)
  else if String.eqb path "partial.go" then
    (([demo_file "partial_test.go" "P"], Some "parse error"), w)
  else demo_GenerateTests path opt w.

Definition demo_pkg : External := {|
  Regexp := string;
  Function := string;
  Writer := string;
  World := list (string * bytes * FileMode);
  regexp_Compile := fun s =>
    if String.eqb s "(" then inr "missing closing )" else inl s;
  TestName := fun f => "Test" ++ f;
  GenerateTests := pkg_GenerateTests;
  ioutil_WriteFile := demo_WriteFile
|}.

(** Both patterns fail to compile. *)
Definition bad_both : Options :=
  {| OnlyFuncs := "("; ExclFuncs := "("; ExportedFuncs := false;
     AllFuncs := false; PrintInputs := false; Subtests := false;
     WriteOutput := false; AllowError := false |}.

(** Only the exclusion pattern fails to compile. *)
Definition bad_excl : Options :=
  {| OnlyFuncs := "^Parse"; ExclFuncs := "("; ExportedFuncs := false;
     AllFuncs := false; PrintInputs := false; Subtests := false;
     WriteOutput := false; AllowError := false |}.

(** Exported-only, without all-functions. *)
Definition exported_only : Options :=
  {| OnlyFuncs := ""; ExclFuncs := ""; ExportedFuncs := true;
     AllFuncs := false; PrintInputs := false; Subtests := false;
     WriteOutput := false; AllowError := false |}.

(** ** Laws of the effect monad *)

Section GoLaws.

Context {X : External}.

Lemma result_eta {A} (r : list Event * World * Outcome A) :
  r = (trace r, world r, outcome r).
Proof. destruct r as [[t w] o]; reflexivity. Qed.

Lemma bind_returned {A B} (m : Go A) (k : A -> Go B) w t1 w1 a :
  m w = (t1, w1, Returned a) ->
  bind m k w =
  ((t1 ++ trace (k a w1))%list, world (k a w1), outcome (k a w1)).
Proof.
  intros Hm. unfold bind. rewrite Hm.
  destruct (k a w1) as [[t2 w2] r]; reflexivity.
Qed.

Lemma bind_exited {A B} (m : Go A) (k : A -> Go B) w t1 w1 :
  m w = (t1, w1, Exited) -> bind m k w = (t1, w1, Exited).
Proof. intros Hm. unfold bind. rewrite Hm. reflexivity. Qed.

Lemma bind_emit {B} (e : Event) (k : unit -> Go B) w :
  bind (emit e) k w = (e :: trace (k tt w), world (k tt w), outcome (k tt w)).
Proof. apply (bind_returned (emit e) k w [e] w tt). reflexivity. Qed.

Lemma bind_ret {A B} (a : A) (k : A -> Go B) w :
  bind (ret a) k w = k a w.
Proof.
  rewrite (bind_returned (ret a) k w [] w a) by reflexivity.
  symmetry. apply result_eta.
Qed.

Lemma forEach_cons {A} (body : A -> Go unit) x xs :
  forEach (x :: xs) body = bind (body x) (fun _ => forEach xs body).
Proof. reflexivity. Qed.

Lemma forEach_emit {A} (f : A -> Event) (l : list A) w :
  forEach l (fun x => emit (f x)) w = (map f l, w, Returned tt).
Proof.
  induction l as [|x xs IH]; [reflexivity|].
  rewrite forEach_cons, bind_emit, IH. reflexivity.
Qed.

Lemma forEach_app {A} (body : A -> Go unit) l1 l2 w t1 w1 :
  forEach l1 body w = (t1, w1, Returned tt) ->
  forEach (l1 ++ l2) body w =
  ((t1 ++ trace (forEach l2 body w1))%list,
   world (forEach l2 body w1), outcome (forEach l2 body w1)).
Proof.
  revert w t1 w1.
  induction l1 as [|x xs IH]; intros w t1 w1 H.
  - cbn in H. injection H as <- <-. cbn [app]. apply result_eta.
  - cbn [app]. rewrite forEach_cons in *.
    destruct (body x w) as [[tx wx] [[]| |]] eqn:Hx.
    + rewrite (bind_returned _ _ _ _ _ _ Hx) in H.
      rewrite (bind_returned _ _ _ _ _ _ Hx).
      injection H as <- Hw Ho.
      assert (Hxs : forEach xs body wx =
                    (trace (forEach xs body wx), w1, Returned tt)).
      { rewrite <- Hw, <- Ho. apply result_eta. }
      rewrite (IH _ _ _ Hxs). cbn [trace world outcome fst snd].
      rewrite app_assoc. reflexivity.
    + rewrite (bind_exited _ _ _ _ _ Hx) in H. discriminate.
    + unfold bind in H. rewrite Hx in H. discriminate.
Qed.

Lemma forEach_app_exited {A} (body : A -> Go unit) l1 l2 w t1 w1 :
  forEach l1 body w = (t1, w1, Exited) ->
  forEach (l1 ++ l2) body w = (t1, w1, Exited).
Proof.
  revert w t1 w1.
  induction l1 as [|x xs IH]; intros w t1 w1 H.
  - discriminate.
  - cbn [app]. rewrite forEach_cons in *.
    destruct (body x w) as [[tx wx] [[]| |]] eqn:Hx.
    + rewrite (bind_returned _ _ _ _ _ _ Hx) in H.
      rewrite (bind_returned _ _ _ _ _ _ Hx).
      injection H as <- Hw Ho.
      assert (Hxs : forEach xs body wx =
                    (trace (forEach xs body wx), w1, Exited)).
      { rewrite <- Hw, <- Ho. apply result_eta. }
      rewrite (IH _ _ _ Hxs). reflexivity.
    + rewrite (bind_exited _ _ _ _ _ Hx) in H.
      rewrite (bind_exited _ _ _ _ _ Hx). exact H.
    + unfold bind in H. rewrite Hx in H. discriminate.
Qed.

Lemma returns_ret : returns (ret tt).
Proof. intro w; reflexivity. Qed.

Lemma returns_emit e : returns (emit e).
Proof. intro w; reflexivity. Qed.

Lemma returns_bind {A} (m : Go A) (k : A -> Go unit) :
  (forall w, exists a, outcome (m w) = Returned a) ->
  (forall a, returns (k a)) -> returns (bind m k).
Proof.
  intros Hm Hk w. destruct (Hm w) as [a Ha].
  rewrite (bind_returned m k w (trace (m w)) (world (m w)) a).
  - apply Hk.
  - rewrite <- Ha. apply result_eta.
Qed.

Lemma returns_when c m : returns m -> returns (when c m).
Proof. intros H. destruct c; [exact H | apply returns_ret]. Qed.

Lemma returns_forEach {A} (body : A -> Go unit) l :
  (forall x, returns (body x)) -> returns (forEach l body).
Proof.
  intros Hb. induction l as [|x xs IH]; [apply returns_ret|].
  rewrite forEach_cons. apply returns_bind; [|intros _; exact IH].
  intro w. exists tt. destruct (outcome (body x w)) as [[]| |] eqn:E;
    try reflexivity; specialize (Hb x w); congruence.
Qed.

Lemma trace_all_ret {A} P (a : A) : trace_all P (ret a).
Proof. intro w; constructor. Qed.

Lemma trace_all_panic {A} P : trace_all P (@panic X A).
Proof. intro w; constructor. Qed.

Lemma trace_all_exit {A} P : trace_all P (@exit X A).
Proof. intro w; constructor. Qed.

Lemma trace_all_emit (P : Event -> Prop) e : P e -> trace_all P (emit e).
Proof. intros H w. repeat constructor. exact H. Qed.

Lemma trace_all_bind {A B} P (m : Go A) (k : A -> Go B) :
  trace_all P m -> (forall a, trace_all P (k a)) -> trace_all P (bind m k).
Proof.
  intros Hm Hk w. specialize (Hm w). unfold bind.
  destruct (m w) as [[t1 w1] [a| |]]; cbn in *; try exact Hm.
  specialize (Hk a w1). destruct (k a w1) as [[t2 w2] r]; cbn in *.
  apply Forall_app; split; assumption.
Qed.

Lemma trace_all_when P c m : trace_all P m -> trace_all P (when c m).
Proof. intros H. destruct c; [exact H | apply trace_all_ret]. Qed.

Lemma trace_all_forEach {A} P (body : A -> Go unit) l :
  (forall x, trace_all P (body x)) -> trace_all P (forEach l body).
Proof.
  intros Hb. induction l as [|x xs IH]; [apply trace_all_ret|].
  rewrite forEach_cons. apply trace_all_bind; [apply Hb | intros _; exact IH].
Qed.

Lemma trace_all_call_GenerateTests (P : Event -> Prop) path opt :
  P (CallGenerateTests path opt) -> trace_all P (call_GenerateTests path opt).
Proof.
  intros H w. unfold call_GenerateTests.
  destruct (GenerateTests path opt w). repeat constructor. exact H.
Qed.

Lemma trace_all_call_WriteFile (P : Event -> Prop) path data perm :
  P (CallWriteFile path data perm) ->
  trace_all P (call_WriteFile path data perm).
Proof.
  intros H w. unfold call_WriteFile.
  destruct (ioutil_WriteFile path data perm w). repeat constructor. exact H.
Qed.

End GoLaws.

Create HintDb go_trace.
#[export] Hint Resolve trace_all_ret trace_all_panic trace_all_exit
  trace_all_emit trace_all_bind trace_all_when trace_all_forEach
  trace_all_call_GenerateTests trace_all_call_WriteFile : go_trace.

(** ** Validation, common to both editions *)

Section Validation.

Context {X : External}.

Lemma no_mode_guard (o : Options) :
  no_mode o <->
  String.eqb (OnlyFuncs o) "" && String.eqb (ExclFuncs o) "" &&
  negb (ExportedFuncs o) && negb (AllFuncs o) = true.
Proof.
  unfold no_mode.
  rewrite !andb_true_iff, !negb_true_iff, !String.eqb_eq. tauto.
Qed.

Lemma no_mode_modes_set (o : Options) : no_mode o <-> modes_set o = 0.
Proof.
  unfold no_mode, modes_set, mode_pair.
  destruct (String.eqb_spec (OnlyFuncs o) "") as [-> | Ho];
    destruct (String.eqb_spec (ExclFuncs o) "") as [-> | He];
    destruct (ExportedFuncs o), (AllFuncs o); cbn;
    split; try lia; try tauto; intros (H1 & H2 & H3 & H4);
    congruence.
Qed.

Lemma config_error_not_valid (o : Options) :
  config_error o -> valid_options o -> False.
Proof.
  intros [Hn | [[e [Hne He]] | [e [Hne He]]]] (Hv & Ho & Hx).
  - exact (Hv Hn).
  - destruct Ho as [Ho | [re Hre]]; congruence.
  - destruct Hx as [Hx | [re Hre]]; congruence.
Qed.

Lemma length_app_cons_nonzero {A} (pre : list A) p rest :
  (length (pre ++ p :: rest) =? 0)%nat = false.
Proof.
  apply Nat.eqb_neq. rewrite length_app. cbn. lia.
Qed.

End Validation.

(** ** Properties of process.go *)

Section ProcessGoFacts.

Context {X : External}.

Import ProcessGo.

Lemma PG_parseRegexp_cases (s : string) :
  (s = "" /\ parseRegexp s = (None, None)) \/
  (exists e, bad_pattern s e /\ parseRegexp s = (None, Some e)) \/
  (exists re, s <> "" /\ regexp_Compile s = inl re /\
              parseRegexp s = (Some re, None)).
Proof.
  unfold parseRegexp, bad_pattern.
  destruct (String.eqb_spec s "") as [-> | Hs]; [left; auto|].
  destruct (regexp_Compile s) as [re | e]; right; [right | left]; eauto.
Qed.

(** [parseOptions] either reports one error line and returns nil, or
    reports nothing and returns the engine's options. *)
Lemma PG_parseOptions_cases (out : Writer) (o : Options) (w : World) :
  (config_error o /\
   exists msg, parseOptions (Some out) (Some o) w =
               ([error_line out msg], w, Returned None)) \/
  (valid_options o /\
   parseOptions (Some out) (Some o) w = ([], w, Returned (Some (engineOptions o)))).
Proof.
  unfold parseOptions, engineOptions, fmt_Fprintf.
  destruct (String.eqb (OnlyFuncs o) "" && String.eqb (ExclFuncs o) "" &&
            negb (ExportedFuncs o) && negb (AllFuncs o)) eqn:G.
  - left. split; [left; apply no_mode_guard; exact G|].
    eexists. rewrite bind_emit. reflexivity.
  - assert (Hn : ~ no_mode o) by (rewrite no_mode_guard; congruence).
    destruct (PG_parseRegexp_cases (OnlyFuncs o))
      as [[Ho ->] | [[e [Hb ->]] | [re [Ho [Hc ->]]]]].
    + destruct (PG_parseRegexp_cases (ExclFuncs o))
        as [[He ->] | [[e [Hb ->]] | [re [He [Hc ->]]]]].
      * right. split; [repeat split; [exact Hn | left; exact Ho | left; exact He]|].
        reflexivity.
      * left. split; [right; right; eauto|].
        eexists. rewrite bind_emit. reflexivity.
      * right. split; [repeat split; [exact Hn | left; exact Ho | right; eauto]|].
        reflexivity.
    + left. split; [right; left; eauto|].
      eexists. rewrite bind_emit. reflexivity.
    + destruct (PG_parseRegexp_cases (ExclFuncs o))
        as [[He ->] | [[e [Hb ->]] | [re' [He [Hc' ->]]]]].
      * right. split; [repeat split; [exact Hn | right; eauto | left; exact He]|].
        reflexivity.
      * left. split; [right; right; eauto|].
        eexists. rewrite bind_emit. reflexivity.
      * right. split; [repeat split; [exact Hn | right; eauto | right; eauto]|].
        reflexivity.
Qed.

Lemma PG_parseOptions_config_error (out : Writer) (o : Options) (w : World) :
  config_error o ->
  exists msg, parseOptions (Some out) (Some o) w =
              ([error_line out msg], w, Returned None).
Proof.
  intros Hc. destruct (PG_parseOptions_cases out o w) as [[_ H] | [Hv _]].
  - exact H.
  - destruct (config_error_not_valid o Hc Hv).
Qed.

Lemma PG_parseOptions_valid (out : Writer) (o : Options) (w : World) :
  valid_options o ->
  parseOptions (Some out) (Some o) w = ([], w, Returned (Some (engineOptions o))).
Proof.
  intros Hv. destruct (PG_parseOptions_cases out o w) as [[Hc _] | [_ H]].
  - destruct (config_error_not_valid o Hc Hv).
  - exact H.
Qed.

Lemma PG_parseOptions_some (out : Writer) (o : Options) (w : World) t w' opt :
  parseOptions (Some out) (Some o) w = (t, w', Returned (Some opt)) ->
  valid_options o /\ t = [] /\ w' = w /\ opt = engineOptions o.
Proof.
  intros H. destruct (PG_parseOptions_cases out o w)
    as [[_ [msg Hm]] | [Hv Hp]].
  - rewrite Hm in H. discriminate.
  - rewrite Hp in H. injection H as <- <- <-. auto.
Qed.

Lemma PG_Run_config_error (out : Writer) args (o : Options) (w : World) :
  config_error o ->
  exists msg, Run (Some out) args (Some o) w = ([error_line out msg], w, Returned tt).
Proof.
  intros Hc. destruct (PG_parseOptions_config_error out o w Hc) as [msg Hm].
  exists msg. unfold Run.
  rewrite (bind_returned _ _ _ _ _ _ Hm). cbn. reflexivity.
Qed.

Lemma PG_Run_no_args (out : Writer) (o : Options) (w : World) :
  valid_options o ->
  Run (Some out) [] (Some o) w =
  ([error_line out
      "-> please specify a file or directory containing the source"],
   w, Returned tt).
Proof.
  intros Hv. unfold Run.
  rewrite (bind_returned _ _ _ _ _ _ (PG_parseOptions_valid out o w Hv)).
  reflexivity.
Qed.

Lemma PG_Run_paths_of_Run (out : Writer) args (o : Options) (w : World) :
  valid_options o ->
  (length args =? 0)%nat = false ->
  Run (Some out) args (Some o) w =
  Run_paths (Some out) (WriteOutput o) (engineOptions o) args w.
Proof.
  intros Hv Hargs. unfold Run.
  rewrite (bind_returned _ _ _ _ _ _ (PG_parseOptions_valid out o w Hv)), Hargs.
  cbn [app]. symmetry. apply result_eta.
Qed.

Lemma PG_generateTests_error out path wo opt w gts err w2 :
  GenerateTests path opt w = ((gts, Some err), w2) ->
  generateTests (Some out) path wo opt w =
  ([CallGenerateTests path opt; Fprintf out err []], w2, Returned tt).
Proof.
  intros H. unfold generateTests, bind, call_GenerateTests.
  rewrite H. reflexivity.
Qed.

Lemma PG_generateTests_empty out path wo opt w w2 :
  GenerateTests path opt w = (([], None), w2) ->
  generateTests (Some out) path wo opt w =
  ([CallGenerateTests path opt;
    info_line out ("-> no tests generated for: " ++ path)],
   w2, Returned tt).
Proof.
  intros H. unfold generateTests, bind, call_GenerateTests.
  rewrite H. reflexivity.
Qed.

Lemma PG_outputTest_stdout out t w :
  outputTest (Some out) t false w =
  ((map (fun f => info_line out ("-> generated: " ++ TestName f))
        (gotests.Functions t) ++ [Write out (gotests.Output t)])%list,
   w, Returned tt).
Proof.
  unfold outputTest, fmt_Fprintf, Writer_Write. cbv beta zeta iota.
  erewrite bind_returned by apply forEach_emit. reflexivity.
Qed.

Lemma PG_outputTest_written out t w w2 :
  ioutil_WriteFile (gotests.Path t) (gotests.Output t) newFilePerm w =
    (None, w2) ->
  outputTest (Some out) t true w =
  (CallWriteFile (gotests.Path t) (gotests.Output t) newFilePerm ::
   map (fun f => info_line out ("-> generated: " ++ TestName f))
       (gotests.Functions t),
   w2, Returned tt).
Proof.
  intros H. unfold outputTest, fmt_Fprintf, Writer_Write. cbv beta zeta iota.
  erewrite bind_returned
    by (unfold call_WriteFile; rewrite H; reflexivity).
  cbv beta zeta iota.
  erewrite bind_returned by apply forEach_emit.
  cbn. rewrite app_nil_r. reflexivity.
Qed.

Lemma PG_outputTest_write_failed out t w err w2 :
  ioutil_WriteFile (gotests.Path t) (gotests.Output t) newFilePerm w =
    (Some err, w2) ->
  outputTest (Some out) t true w =
  ([CallWriteFile (gotests.Path t) (gotests.Output t) newFilePerm;
    Fprintf out msgFmt [AString msgError; AError err]],
   w2, Returned tt).
Proof.
  intros H. unfold outputTest, fmt_Fprintf, Writer_Write. cbv beta zeta iota.
  erewrite bind_returned
    by (unfold call_WriteFile; rewrite H; reflexivity).
  reflexivity.
Qed.

Lemma PG_outputTest_returns out t wo : returns (outputTest (Some out) t wo).
Proof.
  intro w. destruct wo.
  - destruct (ioutil_WriteFile (gotests.Path t) (gotests.Output t)
                newFilePerm w) as [[err|] w2] eqn:E.
    + rewrite (PG_outputTest_write_failed _ _ _ _ _ E). reflexivity.
    + rewrite (PG_outputTest_written _ _ _ _ E). reflexivity.
  - rewrite PG_outputTest_stdout. reflexivity.
Qed.

Lemma PG_generateTests_returns out path wo opt :
  returns (generateTests (Some out) path wo opt).
Proof.
  unfold generateTests. apply returns_bind.
  - intro w. unfold call_GenerateTests.
    destruct (GenerateTests path opt w). eexists; reflexivity.
  - intros [gts [err|]]; [apply returns_emit|].
    destruct (length gts =? 0)%nat; [apply returns_emit|].
    apply returns_forEach. intro t. apply PG_outputTest_returns.
Qed.

Lemma PG_Run_paths_returns out wo opt args :
  returns (Run_paths (Some out) wo opt args).
Proof.
  apply returns_forEach. intro p. apply PG_generateTests_returns.
Qed.

Lemma PG_Run_paths_eta out wo opt args w :
  Run_paths (Some out) wo opt args w =
  (trace (Run_paths (Some out) wo opt args w),
   world (Run_paths (Some out) wo opt args w), Returned tt).
Proof.
  rewrite <- (PG_Run_paths_returns out wo opt args w). apply result_eta.
Qed.

(** The loop goes through a path whose handling returns and continues with
    the paths after it. *)
Lemma PG_Run_paths_step out wo opt pre p rest w tp w2 :
  generateTests (Some out) p wo opt (world (Run_paths (Some out) wo opt pre w)) =
    (tp, w2, Returned tt) ->
  Run_paths (Some out) wo opt (pre ++ p :: rest) w =
  ((trace (Run_paths (Some out) wo opt pre w) ++ tp ++
    trace (Run_paths (Some out) wo opt rest w2))%list,
   world (Run_paths (Some out) wo opt rest w2), Returned tt).
Proof.
  intros Hp. unfold Run_paths at 1.
  rewrite (forEach_app _ pre (p :: rest) w _ _ (PG_Run_paths_eta out wo opt pre w)).
  rewrite forEach_cons. rewrite (bind_returned _ _ _ _ _ _ Hp).
  cbn [trace world outcome fst snd].
  fold (Run_paths (Some out) wo opt rest).
  rewrite (PG_Run_paths_returns out wo opt rest w2). reflexivity.
Qed.

Lemma PG_Run_trace_all (P : Event -> Prop) out args opts :
  (forall f a, P (Fprintf out f a)) ->
  (forall d, P (Write out d)) ->
  (forall p, P (CallGenerateTests p
     (engineOptions (match opts with None => zeroOptions | Some o => o end)))) ->
  (forall p d, P (CallWriteFile p d newFilePerm)) ->
  trace_all P (Run (Some out) args opts).
Proof.
  intros HF HW HG HWF.
  assert (Hout : forall t wo, trace_all P (outputTest (Some out) t wo)).
  { intros t wo. unfold outputTest, fmt_Fprintf, Writer_Write. destruct wo.
    - apply trace_all_bind; auto with go_trace.
      intros [err|]; auto 7 with go_trace.
    - auto 7 with go_trace. }
  set (o := match opts with None => zeroOptions | Some o => o end) in *.
  assert (Hgen : forall p wo,
             trace_all P (generateTests (Some out) p wo (engineOptions o))).
  { intros p wo. unfold generateTests, fmt_Fprintf.
    apply trace_all_bind; auto with go_trace.
    intros [gts [err|]]; auto with go_trace.
    destruct (length gts =? 0)%nat; auto with go_trace. }
  intro w. unfold Run. fold o.
  destruct (PG_parseOptions_cases out o w) as [[_ [msg Hm]] | [_ Hp]].
  - rewrite (bind_returned _ _ _ _ _ _ Hm). repeat constructor. apply HF.
  - rewrite (bind_returned _ _ _ _ _ _ Hp). cbn [app trace fst].
    destruct (length args =? 0)%nat.
    + repeat constructor. apply HF.
    + unfold Run_paths. apply trace_all_forEach. intro p. apply Hgen.
Qed.

End ProcessGoFacts.

(** ** Properties of part_000 *)

Section Part000Facts.

Context {X : External}.

Import Part000.

Lemma P0_Die format args w :
  cmsg_Die format args w = ([Cmsg Die format args], w, Exited).
Proof. reflexivity. Qed.

Lemma P0_parseRegexp_cases (s : string) :
  (s = "" /\ parseRegexp s = (None, None)) \/
  (exists e, bad_pattern s e /\ parseRegexp s = (None, Some e)) \/
  (exists re, s <> "" /\ regexp_Compile s = inl re /\
              parseRegexp s = (Some re, None)).
Proof.
  unfold parseRegexp, bad_pattern.
  destruct (String.eqb_spec s "") as [-> | Hs]; [left; auto|].
  destruct (regexp_Compile s) as [re | e]; right; [right | left]; eauto.
Qed.

(** [parseOptions] either reports one error through [cmsg.Die], which
    ends the process, or reports nothing and returns the engine's
    options. *)
Lemma P0_parseOptions_cases (o : Options) (w : World) :
  (config_error o /\
   exists format args,
     parseOptions (Some o) w = ([Cmsg Die format args], w, Exited)) \/
  (valid_options o /\
   parseOptions (Some o) w = ([], w, Returned (Some (engineOptions o)))).
Proof.
  unfold parseOptions, engineOptions.
  change (@ProcessGo.parseRegexp X) with (@parseRegexp X).
  destruct (String.eqb (OnlyFuncs o) "" && String.eqb (ExclFuncs o) "" &&
            negb (ExportedFuncs o) && negb (AllFuncs o)) eqn:G.
  - left. split; [left; apply no_mode_guard; exact G|].
    do 2 eexists. cbn [when].
    apply bind_exited. apply P0_Die.
  - assert (Hn : ~ no_mode o) by (rewrite no_mode_guard; congruence).
    cbn [when]. rewrite bind_ret.
    destruct (P0_parseRegexp_cases (OnlyFuncs o))
      as [[Ho ->] | [[e [Hb ->]] | [re [Ho [Hc ->]]]]]; cbn [whenErr].
    + rewrite bind_ret.
      destruct (P0_parseRegexp_cases (ExclFuncs o))
        as [[He ->] | [[e [Hb ->]] | [re [He [Hc ->]]]]]; cbn [whenErr].
      * right. split; [repeat split; [exact Hn | left; exact Ho | left; exact He]|].
        reflexivity.
      * left. split; [right; right; eauto|].
        do 2 eexists. apply bind_exited. apply P0_Die.
      * right. split; [repeat split; [exact Hn | left; exact Ho | right; eauto]|].
        reflexivity.
    + left. split; [right; left; eauto|].
      do 2 eexists. apply bind_exited. apply P0_Die.
    + rewrite bind_ret.
      destruct (P0_parseRegexp_cases (ExclFuncs o))
        as [[He ->] | [[e [Hb ->]] | [re' [He [Hc' ->]]]]]; cbn [whenErr].
      * right. split; [repeat split; [exact Hn | right; eauto | left; exact He]|].
        reflexivity.
      * left. split; [right; right; eauto|].
        do 2 eexists. apply bind_exited. apply P0_Die.
      * right. split; [repeat split; [exact Hn | right; eauto | right; eauto]|].
        reflexivity.
Qed.

Lemma P0_parseOptions_config_error (o : Options) (w : World) :
  config_error o ->
  exists format args,
    parseOptions (Some o) w = ([Cmsg Die format args], w, Exited).
Proof.
  intros Hc. destruct (P0_parseOptions_cases o w) as [[_ H] | [Hv _]].
  - exact H.
  - destruct (config_error_not_valid o Hc Hv).
Qed.

Lemma P0_parseOptions_valid (o : Options) (w : World) :
  valid_options o ->
  parseOptions (Some o) w = ([], w, Returned (Some (engineOptions o))).
Proof.
  intros Hv. destruct (P0_parseOptions_cases o w) as [[Hc _] | [_ H]].
  - destruct (config_error_not_valid o Hc Hv).
  - exact H.
Qed.

(** In this edition [parseOptions] never returns nil: it returns the
    engine's options or does not return. *)
Lemma P0_parseOptions_returned (o : Options) (w : World) t w' r :
  parseOptions (Some o) w = (t, w', Returned r) ->
  valid_options o /\ t = [] /\ w' = w /\ r = Some (engineOptions o).
Proof.
  intros H. destruct (P0_parseOptions_cases o w)
    as [[_ (f & a & Hm)] | [Hv Hp]].
  - rewrite Hm in H. discriminate.
  - rewrite Hp in H. injection H as <- <- <-. auto.
Qed.

Lemma P0_Run_config_error (out : Writer) args (o : Options) (w : World) :
  config_error o ->
  exists format args',
    Run (Some out) args (Some o) w =
    ([CmsgSetStderr (Some out); Cmsg Die format args'], w, Exited).
Proof.
  intros Hc. destruct (P0_parseOptions_config_error o w Hc) as (f & a & Hm).
  exists f, a. unfold Run. rewrite bind_emit.
  rewrite (bind_exited _ _ _ _ _ Hm). reflexivity.
Qed.

Lemma P0_Run_no_args (out : Writer) (o : Options) (w : World) :
  valid_options o ->
  Run (Some out) [] (Some o) w =
  ([CmsgSetStderr (Some out);
    Cmsg Die "-> please specify a file or directory containing the source" []],
   w, Exited).
Proof.
  intros Hv. unfold Run. rewrite bind_emit.
  rewrite (bind_returned _ _ _ _ _ _ (P0_parseOptions_valid o w Hv)).
  reflexivity.
Qed.

Lemma P0_Run_paths_of_Run (out : Writer) args (o : Options) (w : World) :
  valid_options o ->
  (length args =? 0)%nat = false ->
  Run (Some out) args (Some o) w =
  (CmsgSetStderr (Some out) ::
     trace (Run_paths (WriteOutput o) (engineOptions o) args w),
   world (Run_paths (WriteOutput o) (engineOptions o) args w),
   outcome (Run_paths (WriteOutput o) (engineOptions o) args w)).
Proof.
  intros Hv Hargs. unfold Run. rewrite bind_emit.
  rewrite (bind_returned _ _ _ _ _ _ (P0_parseOptions_valid o w Hv)), Hargs.
  cbn [when app]. rewrite bind_ret. reflexivity.
Qed.

Lemma P0_generateTests_error path wo opt w gts err w2 :
  GenerateTests path opt w = ((gts, Some err), w2) ->
  generateTests path wo opt w =
  ([CallGenerateTests path opt;
    Cmsg Die "-> generate test failed: %s" [AError err]], w2, Exited).
Proof.
  intros H. unfold generateTests.
  erewrite bind_returned
    by (unfold call_GenerateTests; rewrite H; reflexivity).
  reflexivity.
Qed.

Lemma P0_generateTests_empty path wo opt w w2 :
  GenerateTests path opt w = (([], None), w2) ->
  generateTests path wo opt w =
  ([CallGenerateTests path opt;
    Cmsg Warn "-> no tests generated for: %s" [AString path]],
   w2, Returned tt).
Proof.
  intros H. unfold generateTests.
  erewrite bind_returned
    by (unfold call_GenerateTests; rewrite H; reflexivity).
  reflexivity.
Qed.

Lemma P0_outputTest_stdout t w :
  outputTest t false w =
  (map (fun f => Cmsg Info "-> generated: %s" [AString (TestName f)])
       (gotests.Functions t),
   w, Returned tt).
Proof.
  unfold outputTest. cbn [when]. rewrite bind_ret.
  apply (forEach_emit
           (fun f => Cmsg Info "-> generated: %s" [AString (TestName f)])).
Qed.

Lemma P0_outputTest_written t w w2 :
  ioutil_WriteFile (gotests.Path t) (gotests.Output t) newFilePerm w =
    (None, w2) ->
  outputTest t true w =
  (CallWriteFile (gotests.Path t) (gotests.Output t) newFilePerm ::
   map (fun f => Cmsg Info "-> generated: %s" [AString (TestName f)])
       (gotests.Functions t),
   w2, Returned tt).
Proof.
  intros H. unfold outputTest. cbn [when].
  assert (Hw : bind (call_WriteFile (gotests.Path t) (gotests.Output t)
                       newFilePerm)
                 (fun err => whenErr err (fun err =>
                    cmsg_Die "-> write file %s failed: %s"
                      [AString (gotests.Path t); AError err])) w =
               ([CallWriteFile (gotests.Path t) (gotests.Output t)
                   newFilePerm], w2, Returned tt)).
  { erewrite bind_returned
      by (unfold call_WriteFile; rewrite H; reflexivity).
    reflexivity. }
  rewrite (bind_returned _ _ _ _ _ _ Hw). unfold cmsg_Info.
  rewrite (forEach_emit
             (fun f => Cmsg Info "-> generated: %s" [AString (TestName f)])).
  reflexivity.
Qed.

Lemma P0_outputTest_write_failed t w err w2 :
  ioutil_WriteFile (gotests.Path t) (gotests.Output t) newFilePerm w =
    (Some err, w2) ->
  outputTest t true w =
  ([CallWriteFile (gotests.Path t) (gotests.Output t) newFilePerm;
    Cmsg Die "-> write file %s failed: %s"
      [AString (gotests.Path t); AError err]],
   w2, Exited).
Proof.
  intros H. unfold outputTest. cbn [when].
  apply bind_exited.
  erewrite bind_returned
    by (unfold call_WriteFile; rewrite H; reflexivity).
  reflexivity.
Qed.

(** The loop goes through a path whose handling returns and continues with
    the paths after it, provided it got as far as that path. *)
Lemma P0_Run_paths_step wo opt pre p rest w t1 w1 tp w2 :
  Run_paths wo opt pre w = (t1, w1, Returned tt) ->
  generateTests p wo opt w1 = (tp, w2, Returned tt) ->
  Run_paths wo opt (pre ++ p :: rest) w =
  ((t1 ++ tp ++ trace (Run_paths wo opt rest w2))%list,
   world (Run_paths wo opt rest w2), outcome (Run_paths wo opt rest w2)).
Proof.
  intros Hpre Hp. unfold Run_paths at 1.
  rewrite (forEach_app _ pre (p :: rest) w _ _ Hpre).
  rewrite forEach_cons. rewrite (bind_returned _ _ _ _ _ _ Hp).
  reflexivity.
Qed.

(** The loop ends at a path whose handling ends the process. *)
Lemma P0_Run_paths_halt wo opt pre p rest w t1 w1 tp w2 :
  Run_paths wo opt pre w = (t1, w1, Returned tt) ->
  generateTests p wo opt w1 = (tp, w2, Exited) ->
  Run_paths wo opt (pre ++ p :: rest) w = ((t1 ++ tp)%list, w2, Exited).
Proof.
  intros Hpre Hp. unfold Run_paths at 1.
  rewrite (forEach_app _ pre (p :: rest) w _ _ Hpre).
  rewrite forEach_cons. rewrite (bind_exited _ _ _ _ _ Hp).
  reflexivity.
Qed.

Lemma P0_Run_trace_all (P : Event -> Prop) out args opts :
  P (CmsgSetStderr (Some out)) ->
  (forall fn f a, P (Cmsg fn f a)) ->
  (forall p, P (CallGenerateTests p
     (engineOptions (match opts with None => zeroOptions | Some o => o end)))) ->
  (forall p d, P (CallWriteFile p d newFilePerm)) ->
  trace_all P (Run (Some out) args opts).
Proof.
  intros HS HC HG HWF.
  assert (Hdie : forall f a, trace_all P (cmsg_Die f a)).
  { intros f a. unfold cmsg_Die. auto with go_trace. }
  assert (Herr : forall err k, (forall e, trace_all P (k e)) ->
                               trace_all P (whenErr err k)).
  { intros [e|] k Hk; cbn; auto with go_trace. }
  assert (Hout : forall t wo, trace_all P (outputTest t wo)).
  { intros t wo. unfold outputTest, cmsg_Info.
    apply trace_all_bind; auto 7 with go_trace. }
  set (o := match opts with None => zeroOptions | Some o => o end) in *.
  assert (Hgen : forall p wo,
             trace_all P (generateTests p wo (engineOptions o))).
  { intros p wo. unfold generateTests, cmsg_Warn.
    apply trace_all_bind; auto with go_trace.
    intros [gts err]. auto 8 with go_trace. }
  intro w. unfold Run. fold o. rewrite bind_emit. cbn [trace fst].
  constructor; [exact HS|].
  destruct (P0_parseOptions_cases o w) as [[_ (f & a & Hm)] | [_ Hp]].
  - rewrite (bind_exited _ _ _ _ _ Hm). repeat constructor. apply HC.
  - rewrite (bind_returned _ _ _ _ _ _ Hp). cbn [app trace fst].
    apply trace_all_bind; [auto with go_trace|]. intros _.
    unfold Run_paths. apply trace_all_forEach. intro p. apply Hgen.
Qed.

End Part000Facts.

(** ** Shared facts *)

Section SharedFacts.

Context {X : External}.

Lemma editions_parseRegexp (s : string) :
  Part000.parseRegexp s = ProcessGo.parseRegexp s.
Proof. reflexivity. Qed.

Lemma parseRegexp_empty :
  ProcessGo.parseRegexp "" = (None, None).
Proof. reflexivity. Qed.

Lemma engineOptions_no_only (o : Options) :
  OnlyFuncs o = "" -> gotests.Only (engineOptions o) = None.
Proof. intros H. unfold engineOptions. cbn. rewrite H. reflexivity. Qed.

Lemma engineOptions_no_excl (o : Options) :
  ExclFuncs o = "" -> gotests.Exclude (engineOptions o) = None.
Proof. intros H. unfold engineOptions. cbn. rewrite H. reflexivity. Qed.

(** A nil [*Options] handed to [parseOptions] would be dereferenced. *)
Lemma parseOptions_nil_panics (out : Writer) (w : World) :
  outcome (ProcessGo.parseOptions (Some out) None w) = Panicked /\
  outcome (Part000.parseOptions None w) = Panicked.
Proof. split; reflexivity. Qed.

Lemma PG_Run_no_mode (out : Writer) args (o : Options) (w : World) :
  no_mode o ->
  ProcessGo.Run (Some out) args (Some o) w =
  ([error_line out
      "-> please specify either the -only, -excl, -export, or -all flag"],
   w, Returned tt).
Proof.
  intros Hn. apply no_mode_guard in Hn.
  unfold ProcessGo.Run, ProcessGo.parseOptions. rewrite Hn.
  reflexivity.
Qed.

Lemma P0_Run_no_mode (out : Writer) args (o : Options) (w : World) :
  no_mode o ->
  Part000.Run (Some out) args (Some o) w =
  ([CmsgSetStderr (Some out);
    Cmsg Die
      "-> please specify either the -only, -excl, -export, or -all flag" []],
   w, Exited).
Proof.
  intros Hn. apply no_mode_guard in Hn.
  unfold Part000.Run, Part000.parseOptions. rewrite Hn.
  reflexivity.
Qed.

(** Passing validation is the same thing in both editions: [parseOptions]
    returns the engine's options. *)
Lemma valid_options_iff_parseOptions (out : Writer) (o : Options) (w : World) :
  (valid_options o <->
   exists opt, ProcessGo.parseOptions (Some out) (Some o) w =
               ([], w, Returned (Some opt))) /\
  (valid_options o <->
   exists opt, Part000.parseOptions (Some o) w =
               ([], w, Returned (Some opt))).
Proof.
  split; split.
  - intros Hv. eexists. apply PG_parseOptions_valid. exact Hv.
  - intros [opt H]. apply (PG_parseOptions_some _ _ _ _ _ _ H).
  - intros Hv. eexists. apply P0_parseOptions_valid. exact Hv.
  - intros [opt H]. apply (P0_parseOptions_returned _ _ _ _ _ H).
Qed.

Lemma valid_of_modes (o : Options) :
  1 <= modes_set o ->
  good_pattern (OnlyFuncs o) -> good_pattern (ExclFuncs o) ->
  valid_options o.
Proof.
  intros Hm Ho He. repeat split; try assumption.
  rewrite no_mode_modes_set. lia.
Qed.

Lemma status_lines_app (t1 t2 : list Event) :
  status_lines (t1 ++ t2) = (status_lines t1 ++ status_lines t2)%list.
Proof. apply filter_app. Qed.

Lemma status_lines_map {A} (f : A -> Event) (l : list A) :
  (forall a, is_status (f a) = true) ->
  status_lines (map f l) = map f l.
Proof.
  intros Hf. induction l as [|a l IH]; [reflexivity|].
  cbn. rewrite Hf. f_equal. exact IH.
Qed.

End SharedFacts.

(** ** The statements of the specification *)

(** C10, as the code has it.  [Run] given a nil [*Options] and a writer
    [out] that is not nil does not panic: it puts the zero [Options] in its
    place, which selects no filtering mode, so for every such [out] and
    every [args] the run consists of the single configuration error and
    ends there; the engine is never called and nothing is written. *)
Theorem C10_nil_options_is_config_error
  (X : External) (out : Writer) (args : list string) (w : World) :
  no_mode zeroOptions /\
  ProcessGo.Run (Some out) args None w =
  ([error_line out
      "-> please specify either the -only, -excl, -export, or -all flag"],
   w, Returned tt) /\
  Part000.Run (Some out) args None w =
  ([CmsgSetStderr (Some out);
    Cmsg Die
      "-> please specify either the -only, -excl, -export, or -all flag" []],
   w, Exited).
Proof.
  assert (Hz : no_mode zeroOptions) by (repeat split).
  split; [exact Hz|]. split.
  - exact (PG_Run_no_mode out args zeroOptions w Hz).
  - exact (P0_Run_no_mode out args zeroOptions w Hz).
Qed.

(** C3.  For every list of arguments, a configuration error (no filtering
    mode selected, or an OnlyFuncs or ExclFuncs pattern that does not
    compile) is reported exactly once and before any path is processed:
    the whole run is that one error line, after which process.go returns
    and part_000 halts; the engine is not called, no file is written and no
    generated code is emitted. *)
Theorem C3_config_error_reported_once_before_paths
  (X : External) (out : Writer) (args : list string) (o : Options)
  (w : World) :
  config_error o ->
  (exists msg,
     is_error_line (error_line out msg) = true /\
     ProcessGo.Run (Some out) args (Some o) w =
     ([error_line out msg], w, Returned tt)) /\
  (exists format a,
     Part000.Run (Some out) args (Some o) w =
     ([CmsgSetStderr (Some out); Cmsg Die format a], w, Exited)).
Proof.
  intros Hc. split.
  - destruct (PG_Run_config_error out args o w Hc) as [msg Hm].
    exists msg. split; [reflexivity | exact Hm].
  - exact (P0_Run_config_error out args o w Hc).
Qed.

(** C8.  If the options pass validation and the list of arguments is
    empty, [Run] reports the error that asks for a file or directory and
    generates nothing: the engine is not called and nothing is written. *)
Theorem C8_no_arguments_reports_error
  (X : External) (out : Writer) (o : Options) (w : World) :
  valid_options o ->
  ProcessGo.Run (Some out) [] (Some o) w =
  ([error_line out
      "-> please specify a file or directory containing the source"],
   w, Returned tt) /\
  Part000.Run (Some out) [] (Some o) w =
  ([CmsgSetStderr (Some out);
    Cmsg Die "-> please specify a file or directory containing the source" []],
   w, Exited).
Proof.
  intros Hv. split.
  - exact (PG_Run_no_args out o w Hv).
  - exact (P0_Run_no_args out o w Hv).
Qed.

(** C9.  An empty OnlyFuncs or ExclFuncs means no filter: [parseRegexp]
    gives neither a pattern nor an error for the empty string, whatever
    [regexp.Compile] would do with it, so the Only (Exclude) field of the
    options [parseOptions] returns, and of the options of every call of the
    engine during [Run], is nil. *)
Theorem C9_empty_pattern_is_no_filter (X : External) :
  ProcessGo.parseRegexp "" = (None, None) /\
  Part000.parseRegexp "" = (None, None) /\
  (forall out o w t w' opt,
     ProcessGo.parseOptions (Some out) (Some o) w = (t, w', Returned (Some opt)) ->
     (OnlyFuncs o = "" -> gotests.Only opt = None) /\
     (ExclFuncs o = "" -> gotests.Exclude opt = None)) /\
  (forall o w t w' opt,
     Part000.parseOptions (Some o) w = (t, w', Returned (Some opt)) ->
     (OnlyFuncs o = "" -> gotests.Only opt = None) /\
     (ExclFuncs o = "" -> gotests.Exclude opt = None)) /\
  (forall out args o w path opt,
     In (CallGenerateTests path opt)
        (trace (ProcessGo.Run (Some out) args (Some o) w)) \/
     In (CallGenerateTests path opt)
        (trace (Part000.Run (Some out) args (Some o) w)) ->
     (OnlyFuncs o = "" -> gotests.Only opt = None) /\
     (ExclFuncs o = "" -> gotests.Exclude opt = None)).
Proof.
  split; [reflexivity|]. split; [reflexivity|]. split; [|split].
  - intros out o w t w' opt H.
    destruct (PG_parseOptions_some _ _ _ _ _ _ H) as (_ & _ & _ & ->).
    split; [apply engineOptions_no_only | apply engineOptions_no_excl].
  - intros o w t w' opt H.
    destruct (P0_parseOptions_returned _ _ _ _ _ H) as (_ & _ & _ & E).
    injection E as ->.
    split; [apply engineOptions_no_only | apply engineOptions_no_excl].
  - intros out args o w path opt H.
    assert (E : calls_engine_with (engineOptions o)
                  (CallGenerateTests path opt)).
    { destruct H as [H | H]; revert H; apply Forall_forall.
      - apply (PG_Run_trace_all _ out args (Some o)); cbn; auto.
      - apply (P0_Run_trace_all _ out args (Some o)); cbn; auto. }
    cbn in E. subst opt.
    split; [apply engineOptions_no_only | apply engineOptions_no_excl].
Qed.

(** C2, as the code has it.  At least one filtering mode must be
    configured: an [Options] with none of the three set is rejected as a
    configuration error before any indexing occurs (the run is the single
    error line); an [Options] with one or more of them set, the modes being
    free to combine, passes validation as soon as its patterns compile. *)
Theorem C2_at_least_one_mode
  (X : External) (out : Writer) (args : list string) (o : Options)
  (w : World) :
  (modes_set o = 0 ->
   ProcessGo.Run (Some out) args (Some o) w =
   ([error_line out
       "-> please specify either the -only, -excl, -export, or -all flag"],
    w, Returned tt) /\
   Part000.Run (Some out) args (Some o) w =
   ([CmsgSetStderr (Some out);
     Cmsg Die
       "-> please specify either the -only, -excl, -export, or -all flag" []],
    w, Exited)) /\
  (1 <= modes_set o ->
   good_pattern (OnlyFuncs o) -> good_pattern (ExclFuncs o) ->
   ProcessGo.parseOptions (Some out) (Some o) w =
   ([], w, Returned (Some (engineOptions o))) /\
   Part000.parseOptions (Some o) w =
   ([], w, Returned (Some (engineOptions o)))).
Proof.
  split.
  - intros H0. apply no_mode_modes_set in H0. split.
    + exact (PG_Run_no_mode out args o w H0).
    + exact (P0_Run_no_mode out args o w H0).
  - intros H1 Ho He. pose proof (valid_of_modes o H1 Ho He) as Hv. split.
    + exact (PG_parseOptions_valid out o w Hv).
    + exact (P0_parseOptions_valid o w Hv).
Qed.

(** C1, as the code has it.  The driver forwards allow-error to the engine
    and never consults it.  When [GenerateTests] returns an error for a
    path, whatever allow-error is: process.go writes the error text to
    [out] and goes on with the remaining paths; part_000 reports the error
    through [cmsg.Die], which ends the run, so the remaining paths are not
    processed. *)
Theorem C1_generation_error_in_each_edition
  (X : External) (out : Writer) (o : Options)
  (pre : list string) (p : string) (rest : list string) (w : World) :
  valid_options o ->
  gotests.AllowError (engineOptions o) = AllowError o /\
  (forall gts err w2,
     GenerateTests p (engineOptions o)
       (world (ProcessGo.Run_paths (Some out) (WriteOutput o) (engineOptions o)
                 pre w)) = ((gts, Some err), w2) ->
     ProcessGo.Run (Some out) (pre ++ p :: rest) (Some o) w =
     ((trace (ProcessGo.Run_paths (Some out) (WriteOutput o) (engineOptions o)
                pre w) ++
       [CallGenerateTests p (engineOptions o); Fprintf out err []] ++
       trace (ProcessGo.Run_paths (Some out) (WriteOutput o) (engineOptions o)
                rest w2))%list,
      world (ProcessGo.Run_paths (Some out) (WriteOutput o) (engineOptions o)
               rest w2),
      Returned tt)) /\
  (forall t1 w1 gts err w2,
     Part000.Run_paths (WriteOutput o) (engineOptions o) pre w =
       (t1, w1, Returned tt) ->
     GenerateTests p (engineOptions o) w1 = ((gts, Some err), w2) ->
     Part000.Run (Some out) (pre ++ p :: rest) (Some o) w =
     ((CmsgSetStderr (Some out) :: t1 ++
       [CallGenerateTests p (engineOptions o);
        Cmsg Die "-> generate test failed: %s" [AError err]])%list,
      w2, Exited)).
Proof.
  intros Hv. split; [reflexivity|]. split.
  - intros gts err w2 Hg.
    rewrite (PG_Run_paths_of_Run out _ o w Hv
               (length_app_cons_nonzero pre p rest)).
    apply PG_Run_paths_step.
    exact (PG_generateTests_error out p _ _ _ gts err w2 Hg).
  - intros t1 w1 gts err w2 Hpre Hg.
    rewrite (P0_Run_paths_of_Run out _ o w Hv
               (length_app_cons_nonzero pre p rest)).
    rewrite (P0_Run_paths_halt _ _ pre p rest w t1 w1 _ w2 Hpre
               (P0_generateTests_error p _ _ _ gts err w2 Hg)).
    reflexivity.
Qed.

(** C5.  When generation for a path succeeds with zero generated tests,
    one status line that is not an error is reported for that path
    (an [INFO] line in process.go, [cmsg.Warn] in part_000) and the run
    does not halt there: the paths after it are processed as they would be
    on their own. *)
Theorem C5_no_tests_warns_and_continues
  (X : External) (out : Writer) (o : Options)
  (pre : list string) (p : string) (rest : list string) (w : World) :
  valid_options o ->
  (forall w2,
     GenerateTests p (engineOptions o)
       (world (ProcessGo.Run_paths (Some out) (WriteOutput o) (engineOptions o)
                 pre w)) = (([], None), w2) ->
     is_status (info_line out ("-> no tests generated for: " ++ p)) = true /\
     is_error_line (info_line out ("-> no tests generated for: " ++ p))
       = false /\
     ProcessGo.Run (Some out) (pre ++ p :: rest) (Some o) w =
     ((trace (ProcessGo.Run_paths (Some out) (WriteOutput o) (engineOptions o)
                pre w) ++
       [CallGenerateTests p (engineOptions o);
        info_line out ("-> no tests generated for: " ++ p)] ++
       trace (ProcessGo.Run_paths (Some out) (WriteOutput o) (engineOptions o)
                rest w2))%list,
      world (ProcessGo.Run_paths (Some out) (WriteOutput o) (engineOptions o)
               rest w2),
      Returned tt)) /\
  (forall t1 w1 w2,
     Part000.Run_paths (WriteOutput o) (engineOptions o) pre w =
       (t1, w1, Returned tt) ->
     GenerateTests p (engineOptions o) w1 = (([], None), w2) ->
     Part000.Run (Some out) (pre ++ p :: rest) (Some o) w =
     ((CmsgSetStderr (Some out) :: t1 ++
       [CallGenerateTests p (engineOptions o);
        Cmsg Warn "-> no tests generated for: %s" [AString p]] ++
       trace (Part000.Run_paths (WriteOutput o) (engineOptions o)
                rest w2))%list,
      world (Part000.Run_paths (WriteOutput o) (engineOptions o) rest w2),
      outcome (Part000.Run_paths (WriteOutput o) (engineOptions o)
                 rest w2))).
Proof.
  intros Hv. split.
  - intros w2 Hg. split; [reflexivity|]. split; [reflexivity|].
    rewrite (PG_Run_paths_of_Run out _ o w Hv
               (length_app_cons_nonzero pre p rest)).
    apply PG_Run_paths_step.
    exact (PG_generateTests_empty out p _ _ _ w2 Hg).
  - intros t1 w1 w2 Hpre Hg.
    rewrite (P0_Run_paths_of_Run out _ o w Hv
               (length_app_cons_nonzero pre p rest)).
    rewrite (P0_Run_paths_step _ _ pre p rest w t1 w1 _ w2 Hpre
               (P0_generateTests_empty p _ _ _ w2 Hg)).
    reflexivity.
Qed.

(** C6.  Every file the run writes to disk is written with mode 0644:
    read and write for the owner, read for the group and for the others. *)
Theorem C6_written_files_have_mode_0644
  (X : External) (out : Writer) (args : list string) (opts : option Options)
  (w : World) (path : string) (data : bytes) (perm : FileMode) :
  In (CallWriteFile path data perm) (trace (ProcessGo.Run (Some out) args opts w)) \/
  In (CallWriteFile path data perm) (trace (Part000.Run (Some out) args opts w)) ->
  perm = octal [0; 6; 4; 4]%Z /\ perm = 420%Z /\
  perm_string perm = "rw-r--r--".
Proof.
  intros H.
  assert (E : writes_with_mode (octal [0; 6; 4; 4]%Z)
                (CallWriteFile path data perm)).
  { destruct H as [H | H]; revert H; apply Forall_forall.
    - apply (PG_Run_trace_all _ out args opts); cbn; auto.
    - apply (P0_Run_trace_all _ out args opts); cbn; auto. }
  cbn in E. subst perm. repeat split.
Qed.

(** Reports counted as calls.  A generated file that is handled
    successfully (printed, or written without error) is followed by exactly
    one "generated" report for each of its test functions, in order; a file
    that cannot be written, a path whose generation fails, a path with no
    tests, a configuration error and a missing argument are each followed
    by exactly one report.  What text a report prints, and whether it ends
    its line, is another matter. *)
Lemma one_report_per_outcome (X : External) (out : Writer) :
  (forall t wo w,
     wo = false \/
     fst (ioutil_WriteFile (gotests.Path t) (gotests.Output t)
            ProcessGo.newFilePerm w) = None ->
     status_lines (trace (ProcessGo.outputTest (Some out) t wo w)) =
     map (fun f => info_line out ("-> generated: " ++ TestName f))
         (gotests.Functions t) /\
     status_lines (trace (Part000.outputTest t wo w)) =
     map (fun f => Cmsg Info "-> generated: %s" [AString (TestName f)])
         (gotests.Functions t)) /\
  (forall t w err,
     fst (ioutil_WriteFile (gotests.Path t) (gotests.Output t)
            ProcessGo.newFilePerm w) = Some err ->
     status_lines (trace (ProcessGo.outputTest (Some out) t true w)) =
     [Fprintf out ProcessGo.msgFmt
        [AString ProcessGo.msgError; AError err]] /\
     status_lines (trace (Part000.outputTest t true w)) =
     [Cmsg Die "-> write file %s failed: %s"
        [AString (gotests.Path t); AError err]]) /\
  (forall path wo opt w gts err,
     fst (GenerateTests path opt w) = (gts, Some err) ->
     status_lines (trace (ProcessGo.generateTests (Some out) path wo opt w)) =
     [Fprintf out err []] /\
     status_lines (trace (Part000.generateTests path wo opt w)) =
     [Cmsg Die "-> generate test failed: %s" [AError err]]) /\
  (forall path wo opt w,
     fst (GenerateTests path opt w) = ([], None) ->
     status_lines (trace (ProcessGo.generateTests (Some out) path wo opt w)) =
     [info_line out ("-> no tests generated for: " ++ path)] /\
     status_lines (trace (Part000.generateTests path wo opt w)) =
     [Cmsg Warn "-> no tests generated for: %s" [AString path]]) /\
  (forall args o w,
     config_error o ->
     length (status_lines (trace (ProcessGo.Run (Some out) args (Some o) w))) = 1 /\
     length (status_lines (trace (Part000.Run (Some out) args (Some o) w))) = 1) /\
  (forall o w,
     valid_options o ->
     length (status_lines (trace (ProcessGo.Run (Some out) [] (Some o) w))) = 1 /\
     length (status_lines (trace (Part000.Run (Some out) [] (Some o) w))) = 1).
Proof.
  repeat apply conj.
  - intros t wo w H.
    assert (Hw : wo = false \/
                 wo = true /\ exists w2,
                   ioutil_WriteFile (gotests.Path t) (gotests.Output t)
                     ProcessGo.newFilePerm w = (None, w2)).
    { destruct wo; [right | left; reflexivity].
      destruct H as [H | H]; [discriminate|]. split; [reflexivity|].
      destruct (ioutil_WriteFile _ _ _ w) as [r w2]. cbn in H. subst r.
      exists w2. reflexivity. }
    destruct Hw as [-> | [-> [w2 Hw]]].
    + rewrite PG_outputTest_stdout, P0_outputTest_stdout.
      cbn [trace fst]. rewrite status_lines_app.
      rewrite !status_lines_map by reflexivity.
      cbn. rewrite app_nil_r. split; reflexivity.
    + rewrite (PG_outputTest_written out t w w2 Hw).
      rewrite (P0_outputTest_written t w w2 Hw).
      cbn [trace fst].
      change (status_lines (?e :: ?l)) with
        (if is_status e then e :: status_lines l else status_lines l).
      cbn [is_status]. rewrite !status_lines_map by reflexivity.
      split; reflexivity.
  - intros t w err H.
    destruct (ioutil_WriteFile (gotests.Path t) (gotests.Output t)
                ProcessGo.newFilePerm w) as [r w2] eqn:Hw.
    cbn in H. subst r.
    rewrite (PG_outputTest_write_failed out t w err w2 Hw).
    rewrite (P0_outputTest_write_failed t w err w2 Hw).
    split; reflexivity.
  - intros path wo opt w gts err H.
    destruct (GenerateTests path opt w) as [r w2] eqn:Hg.
    cbn in H. subst r.
    rewrite (PG_generateTests_error out path wo opt w gts err w2 Hg).
    rewrite (P0_generateTests_error path wo opt w gts err w2 Hg).
    split; reflexivity.
  - intros path wo opt w H.
    destruct (GenerateTests path opt w) as [r w2] eqn:Hg.
    cbn in H. subst r.
    rewrite (PG_generateTests_empty out path wo opt w w2 Hg).
    rewrite (P0_generateTests_empty path wo opt w w2 Hg).
    split; reflexivity.
  - intros args o w Hc.
    destruct (PG_Run_config_error out args o w Hc) as [msg ->].
    destruct (P0_Run_config_error out args o w Hc) as (f & a & ->).
    split; reflexivity.
  - intros o w Hv.
    rewrite (PG_Run_no_args out o w Hv), (P0_Run_no_args out o w Hv).
    split; reflexivity.
Qed.

(** Write mode in process.go: with WriteOutput on, the rendered bytes go
    to the file at the result's path; with WriteOutput off, no file is
    written and the bytes go to [out] after the status lines. *)
Lemma PG_outputTest_write_mode
  (X : External) (out : Writer) (t : gotests.GeneratedTest Function)
  (w : World) :
  (exists tl,
     trace (ProcessGo.outputTest (Some out) t true w) =
     CallWriteFile (gotests.Path t) (gotests.Output t)
       ProcessGo.newFilePerm :: tl /\
     Forall (fun e => is_status e = true) tl) /\
  ProcessGo.outputTest (Some out) t false w =
  ((map (fun f => info_line out ("-> generated: " ++ TestName f))
        (gotests.Functions t) ++ [Write out (gotests.Output t)])%list,
   w, Returned tt).
Proof.
  split; [|apply PG_outputTest_stdout].
  destruct (ioutil_WriteFile (gotests.Path t) (gotests.Output t)
              ProcessGo.newFilePerm w) as [[err|] w2] eqn:Hw.
  - rewrite (PG_outputTest_write_failed out t w err w2 Hw).
    eexists. split; [reflexivity|]. repeat constructor.
  - rewrite (PG_outputTest_written out t w w2 Hw).
    eexists. split; [reflexivity|].
    apply Forall_forall. intros e He. apply in_map_iff in He.
    destruct He as [f [<- _]]. reflexivity.
Qed.

(** In part_000 no run ever copies bytes to the output stream. *)
Lemma P0_Run_never_writes_out
  (X : External) (out : Writer) (args : list string) (opts : option Options)
  (w : World) :
  Forall (fun e => match e with Write _ _ => False | _ => True end)
         (trace (Part000.Run (Some out) args opts w)).
Proof.
  apply (P0_Run_trace_all _ out args opts); cbn; auto.
Qed.

(** C4.  What each edition does with a generated file when WriteOutput is
    off: process.go prints the status lines and then the rendered bytes on
    [out]; part_000 prints the status lines only, and the rendered bytes
    are not emitted anywhere. *)
Theorem C4_part000_drops_output_when_not_writing :
  let t := {| gotests.Path := "a.go_test.go";
              gotests.Functions := ["Add"];
              gotests.Output := demo_output |} in
  ProcessGo.outputTest (X := demo) (Some "out") t false [] =
  ([info_line (X := demo) "out" "-> generated: TestAdd";
    Write (X := demo) "out" demo_output], [], Returned tt) /\
  Part000.outputTest (X := demo) t false [] =
  ([Cmsg (X := demo) Info "-> generated: %s" [AString "TestAdd"]],
   [], Returned tt) /\
  Part000.Run (X := demo) (Some "out") ["a.go"] (Some (demo_opts false false)) [] =
  ([CmsgSetStderr (X := demo) (Some "out");
    CallGenerateTests (X := demo) "a.go" (demo_gopt false);
    Cmsg Info "-> generated: %s" [AString "TestAdd"];
    Cmsg Info "-> generated: %s" [AString "TestSub"]], [], Returned tt).
Proof. repeat split. Qed.

(** ** The statements at concrete inputs *)

Ltac demo_valid :=
  repeat split;
  [ intros (_ & _ & _ & H); discriminate H
  | left; reflexivity
  | left; reflexivity ].

(** C1 as stated fails in both editions.  In process.go, with allow-error
    off, the run goes on to ["empty.go"] after [GenerateTests] has failed
    on ["bad.go"].  In part_000, with allow-error on, the run halts at
    ["bad.go"] and ["empty.go"] is never processed. *)
Lemma C1_counterexample :
  (AllowError (demo_opts false false) = false /\
   snd (fst (@GenerateTests demo "bad.go" (demo_gopt false) [])) =
     Some "parse error" /\
   ProcessGo.Run (X := demo) (Some "out") ["bad.go"; "empty.go"]
     (Some (demo_opts false false)) [] =
   ([CallGenerateTests (X := demo) "bad.go" (demo_gopt false);
     Fprintf (X := demo) "out" "parse error" [];
     CallGenerateTests (X := demo) "empty.go" (demo_gopt false);
     info_line (X := demo) "out" "-> no tests generated for: empty.go"],
    [], Returned tt)) /\
  (AllowError (demo_opts false true) = true /\
   snd (fst (@GenerateTests demo "bad.go" (demo_gopt true) [])) =
     Some "parse error" /\
   Part000.Run (X := demo) (Some "out") ["bad.go"; "empty.go"]
     (Some (demo_opts false true)) [] =
   ([CmsgSetStderr (X := demo) (Some "out");
     CallGenerateTests (X := demo) "bad.go" (demo_gopt true);
     Cmsg Die "-> generate test failed: %s" [AError "parse error"]],
    [], Exited)).
Proof. repeat split. Qed.

Lemma C1_witness :
  valid_options (X := demo) (demo_opts false false) /\
  ProcessGo.Run (X := demo) (Some "out") ["a.go"; "bad.go"; "empty.go"]
    (Some (demo_opts false false)) [] =
  ([CallGenerateTests (X := demo) "a.go" (demo_gopt false);
    info_line (X := demo) "out" "-> generated: TestAdd";
    info_line (X := demo) "out" "-> generated: TestSub";
    Write (X := demo) "out" demo_output;
    CallGenerateTests (X := demo) "bad.go" (demo_gopt false);
    Fprintf (X := demo) "out" "parse error" [];
    CallGenerateTests (X := demo) "empty.go" (demo_gopt false);
    info_line (X := demo) "out" "-> no tests generated for: empty.go"],
   [], Returned tt) /\
  Part000.Run (X := demo) (Some "out") ["a.go"; "bad.go"; "empty.go"]
    (Some (demo_opts false false)) [] =
  ([CmsgSetStderr (X := demo) (Some "out");
    CallGenerateTests (X := demo) "a.go" (demo_gopt false);
    Cmsg Info "-> generated: %s" [AString "TestAdd"];
    Cmsg Info "-> generated: %s" [AString "TestSub"];
    CallGenerateTests (X := demo) "bad.go" (demo_gopt false);
    Cmsg Die "-> generate test failed: %s" [AError "parse error"]],
   [], Exited).
Proof.
  assert (Hv : valid_options (X := demo) (demo_opts false false))
    by demo_valid.
  split; [exact Hv|].
  destruct (C1_generation_error_in_each_edition demo "out"
              (demo_opts false false) ["a.go"] "bad.go" ["empty.go"] [] Hv)
    as (_ & H1 & H2).
  split.
  - exact (H1 [] "parse error" [] eq_refl).
  - exact (H2 _ _ [] "parse error" [] eq_refl eq_refl).
Defined.

(** C2 as stated fails: an [Options] that selects two modes, exported-only
    and all-functions, is not rejected; validation passes and the engine is
    called on the path. *)
Lemma C2_counterexample :
  modes_set two_modes = 2 /\
  ProcessGo.Run (X := demo) (Some "out") ["empty.go"] (Some two_modes) [] =
  ([CallGenerateTests (X := demo) "empty.go" (engineOptions two_modes);
    info_line (X := demo) "out" "-> no tests generated for: empty.go"],
   [], Returned tt) /\
  Part000.Run (X := demo) (Some "out") ["empty.go"] (Some two_modes) [] =
  ([CmsgSetStderr (X := demo) (Some "out");
    CallGenerateTests (X := demo) "empty.go" (engineOptions two_modes);
    Cmsg Warn "-> no tests generated for: %s" [AString "empty.go"]],
   [], Returned tt).
Proof. repeat split. Qed.

Lemma C2_witness :
  (modes_set zeroOptions = 0 /\
   ProcessGo.Run (X := demo) (Some "out") ["a.go"] (Some zeroOptions) [] =
   ([error_line (X := demo) "out"
       "-> please specify either the -only, -excl, -export, or -all flag"],
    [], Returned tt)) /\
  (1 <= modes_set two_modes /\
   ProcessGo.parseOptions (X := demo) (Some "out") (Some two_modes) [] =
   ([], [], Returned (Some (engineOptions two_modes))) /\
   Part000.parseOptions (X := demo) (Some two_modes) [] =
   ([], [], Returned (Some (engineOptions two_modes)))).
Proof.
  split.
  - split; [reflexivity|].
    exact (proj1 (proj1 (C2_at_least_one_mode demo "out" ["a.go"]
                           zeroOptions []) eq_refl)).
  - split; [cbn; lia|].
    apply (proj2 (C2_at_least_one_mode demo "out" [] two_modes [])).
    + cbn; lia.
    + left; reflexivity.
    + left; reflexivity.
Defined.

Lemma C3_witness :
  config_error (X := demo) bad_only /\
  (exists msg,
     is_error_line (error_line (X := demo) "out" msg) = true /\
     ProcessGo.Run (X := demo) (Some "out") ["a.go"; "b.go"] (Some bad_only) [] =
     ([error_line (X := demo) "out" msg], [], Returned tt)) /\
  (exists format a,
     Part000.Run (X := demo) (Some "out") ["a.go"; "b.go"] (Some bad_only) [] =
     ([CmsgSetStderr (X := demo) (Some "out"); Cmsg Die format a], [], Exited)).
Proof.
  assert (Hc : config_error (X := demo) bad_only).
  { right; left. exists "missing closing )". split.
    - discriminate.
    - reflexivity. }
  split; [exact Hc|].
  exact (C3_config_error_reported_once_before_paths demo "out"
           ["a.go"; "b.go"] bad_only [] Hc).
Defined.

Lemma C5_witness :
  valid_options (X := demo) (demo_opts false false) /\
  ProcessGo.Run (X := demo) (Some "out") ["bad.go"; "empty.go"; "a.go"]
    (Some (demo_opts false false)) [] =
  ([CallGenerateTests (X := demo) "bad.go" (demo_gopt false);
    Fprintf (X := demo) "out" "parse error" [];
    CallGenerateTests (X := demo) "empty.go" (demo_gopt false);
    info_line (X := demo) "out" "-> no tests generated for: empty.go";
    CallGenerateTests (X := demo) "a.go" (demo_gopt false);
    info_line (X := demo) "out" "-> generated: TestAdd";
    info_line (X := demo) "out" "-> generated: TestSub";
    Write (X := demo) "out" demo_output],
   [], Returned tt) /\
  Part000.Run (X := demo) (Some "out") ["a.go"; "empty.go"; "a.go"]
    (Some (demo_opts false false)) [] =
  ([CmsgSetStderr (X := demo) (Some "out");
    CallGenerateTests (X := demo) "a.go" (demo_gopt false);
    Cmsg Info "-> generated: %s" [AString "TestAdd"];
    Cmsg Info "-> generated: %s" [AString "TestSub"];
    CallGenerateTests (X := demo) "empty.go" (demo_gopt false);
    Cmsg Warn "-> no tests generated for: %s" [AString "empty.go"];
    CallGenerateTests (X := demo) "a.go" (demo_gopt false);
    Cmsg Info "-> generated: %s" [AString "TestAdd"];
    Cmsg Info "-> generated: %s" [AString "TestSub"]],
   [], Returned tt).
Proof.
  assert (Hv : valid_options (X := demo) (demo_opts false false))
    by demo_valid.
  split; [exact Hv|]. split.
  - exact (proj2 (proj2 (proj1
      (C5_no_tests_warns_and_continues demo "out" (demo_opts false false)
         ["bad.go"] "empty.go" ["a.go"] [] Hv) [] eq_refl))).
  - exact (proj2
      (C5_no_tests_warns_and_continues demo "out" (demo_opts false false)
         ["a.go"] "empty.go" ["a.go"] [] Hv) _ _ [] eq_refl eq_refl).
Defined.

Lemma C6_witness :
  In (CallWriteFile (X := demo) "a.go_test.go" demo_output 420%Z)
     (trace (ProcessGo.Run (X := demo) (Some "out") ["a.go"]
               (Some (demo_opts true false)) [])) /\
  420%Z = octal [0; 6; 4; 4]%Z /\ 420%Z = 420%Z /\
  perm_string 420%Z = "rw-r--r--".
Proof.
  assert (Hin : In (CallWriteFile (X := demo) "a.go_test.go" demo_output
                      420%Z)
                   (trace (ProcessGo.Run (X := demo) (Some "out") ["a.go"]
                             (Some (demo_opts true false)) []))).
  { right; left; reflexivity. }
  split; [exact Hin|].
  exact (C6_written_files_have_mode_0644 demo "out" ["a.go"]
           (Some (demo_opts true false)) [] "a.go_test.go" demo_output
           420%Z (or_introl Hin)).
Defined.

Lemma C8_witness :
  valid_options (X := demo) (demo_opts true false) /\
  ProcessGo.Run (X := demo) (Some "out") [] (Some (demo_opts true false)) [] =
  ([error_line (X := demo) "out"
      "-> please specify a file or directory containing the source"],
   [], Returned tt) /\
  Part000.Run (X := demo) (Some "out") [] (Some (demo_opts true false)) [] =
  ([CmsgSetStderr (X := demo) (Some "out");
    Cmsg Die "-> please specify a file or directory containing the source" []],
   [], Exited).
Proof.
  assert (Hv : valid_options (X := demo) (demo_opts true false))
    by demo_valid.
  split; [exact Hv|].
  exact (C8_no_arguments_reports_error demo "out" (demo_opts true false)
           [] Hv).
Defined.

Lemma C9_witness :
  (OnlyFuncs (demo_opts false false) = "" /\
   ExclFuncs (demo_opts false false) = "") /\
  (gotests.Only (demo_gopt false) = None /\
   gotests.Exclude (demo_gopt false) = None) /\
  In (CallGenerateTests (X := demo) "a.go" (demo_gopt false))
     (trace (Part000.Run (X := demo) (Some "out") ["a.go"]
               (Some (demo_opts false false)) [])).
Proof.
  destruct (C9_empty_pattern_is_no_filter demo) as (_ & _ & H1 & _ & H3).
  assert (Hin : In (CallGenerateTests (X := demo) "a.go" (demo_gopt false))
                   (trace (Part000.Run (X := demo) (Some "out") ["a.go"]
                             (Some (demo_opts false false)) []))).
  { right; left; reflexivity. }
  split; [split; reflexivity|]. split; [|exact Hin].
  destruct (H3 "out" ["a.go"] (demo_opts false false) [] "a.go"
              (demo_gopt false) (or_intror Hin)) as [Ho He].
  destruct (H1 "out" (demo_opts false false) [] [] [] (demo_gopt false)
              eq_refl) as [Ho' He'].
  split; [exact (Ho eq_refl) | exact (He' eq_refl)].
Defined.

(** ** More laws of the effect monad *)

Section ViewLaws.

Context {X : External}.

(** A loop whose body only emits effects. *)
Lemma forEach_pure {A} (body : A -> Go unit) (g : A -> list Event) l w :
  (forall x w', body x w' = (g x, w', Returned tt)) ->
  forEach l body w = (flat_map g l, w, Returned tt).
Proof.
  intros Hb. induction l as [|x xs IH]; [reflexivity|].
  rewrite forEach_cons, (bind_returned _ _ _ _ _ _ (Hb x w)), IH.
  reflexivity.
Qed.

(** A view of a loop whose body shows [g x] at every turn: the loop shows
    the views of the elements it reached, all of them if it returns. *)
Lemma forEach_view {A B} (h : Event -> list B) (g : A -> list B)
  (body : A -> Go unit) :
  (forall x w, flat_map h (trace (body x w)) = g x) ->
  (forall x w, outcome (body x w) <> Panicked) ->
  forall l w,
    outcome (forEach l body w) <> Panicked /\
    (exists n, flat_map h (trace (forEach l body w)) =
               flat_map g (firstn n l)) /\
    (outcome (forEach l body w) = Returned tt ->
     flat_map h (trace (forEach l body w)) = flat_map g l).
Proof.
  intros Hg Hp. induction l as [|x xs IH]; intro w.
  - repeat split; [discriminate | exists 0; reflexivity].
  - rewrite forEach_cons. specialize (Hg x w). specialize (Hp x w).
    destruct (body x w) as [[tx wx] [[]| |]] eqn:Hx; cbn in Hg, Hp.
    + rewrite (bind_returned _ _ _ _ _ _ Hx).
      destruct (IH wx) as (IHp & [n IHn] & IHr).
      cbn [trace world outcome fst snd].
      split; [exact IHp|]. split.
      * exists (S n). rewrite flat_map_app, Hg, IHn. reflexivity.
      * intros Hr. rewrite flat_map_app, Hg, (IHr Hr). reflexivity.
    + rewrite (bind_exited _ _ _ _ _ Hx). cbn [trace world outcome fst snd].
      split; [discriminate|]. split; [|discriminate].
      exists 1. cbn. rewrite app_nil_r. exact Hg.
    + destruct Hp. reflexivity.
Qed.

Lemma forEach_view_returns {A B} (h : Event -> list B) (g : A -> list B)
  (body : A -> Go unit) l w :
  (forall x w', flat_map h (trace (body x w')) = g x) ->
  (forall x, returns (body x)) ->
  flat_map h (trace (forEach l body w)) = flat_map g l.
Proof.
  intros Hg Hr.
  apply (forEach_view h g body Hg).
  - intros x w' E. rewrite (Hr x w') in E. discriminate.
  - apply returns_forEach. exact Hr.
Qed.

Lemma dies_last_ret {A} (a : A) w : dies_last (ret a w).
Proof. constructor. Qed.

Lemma dies_last_emit e w : is_die e = false -> dies_last (emit e w).
Proof. intros H. repeat constructor. exact H. Qed.

Lemma dies_last_bind {A B} (m : Go A) (k : A -> Go B) w :
  dies_last (m w) -> (forall a w', dies_last (k a w')) ->
  dies_last (bind m k w).
Proof.
  unfold dies_last, bind. intros Hm Hk.
  destruct (m w) as [[t1 w1] [a| |]]; cbn in *; try exact Hm.
  specialize (Hk a w1).
  destruct (k a w1) as [[t2 w2] [b| |]]; cbn in *.
  - apply Forall_app; split; assumption.
  - destruct Hk as (t & f & args & -> & Ht).
    exists (t1 ++ t)%list, f, args. split.
    + apply app_assoc.
    + apply Forall_app; split; assumption.
  - exact Hk.
Qed.

Lemma dies_last_when c (m : Go unit) w :
  dies_last (m w) -> dies_last (when c m w).
Proof. intros H. destruct c; [exact H | apply dies_last_ret]. Qed.

Lemma dies_last_forEach {A} (body : A -> Go unit) l :
  (forall x w, dies_last (body x w)) -> forall w, dies_last (forEach l body w).
Proof.
  intros Hb. induction l as [|x xs IH]; intro w; [apply dies_last_ret|].
  rewrite forEach_cons. apply dies_last_bind; [apply Hb | intros _; exact IH].
Qed.

Lemma dies_last_call_GenerateTests path opt w :
  dies_last (call_GenerateTests path opt w).
Proof.
  unfold call_GenerateTests. destruct (GenerateTests path opt w).
  repeat constructor.
Qed.

Lemma dies_last_call_WriteFile path data perm w :
  dies_last (call_WriteFile path data perm w).
Proof.
  unfold call_WriteFile. destruct (ioutil_WriteFile path data perm w).
  repeat constructor.
Qed.

(** What [dies_last] says in terms of the trace alone. *)
Lemma dies_last_spec {A} (r : list Event * World * Outcome A) :
  dies_last r ->
  outcome r <> Panicked /\
  (outcome r = Exited <-> exists format a, In (Cmsg Die format a) (trace r)) /\
  (forall t1 format a t2,
     trace r = (t1 ++ Cmsg Die format a :: t2)%list -> t2 = []).
Proof.
  unfold dies_last. destruct r as [[t w] [a| |]]; cbn; intros H.
  - split; [discriminate|]. split.
    + split; [discriminate|]. intros (f & args & Hin).
      rewrite Forall_forall in H. specialize (H _ Hin). discriminate.
    + intros t1 f args t2 ->. apply Forall_app in H. destruct H as [_ H].
      inversion H; subst. discriminate.
  - destruct H as (t0 & f & args & -> & Ht). split; [discriminate|]. split.
    + split; [|reflexivity]. intros _. exists f, args.
      apply in_or_app. right. left. reflexivity.
    + intros t1 f' args' t2 E.
      destruct t2 as [|e t2'] using rev_ind; [reflexivity|].
      exfalso. clear IHt2'.
      change (t1 ++ Cmsg Die f' args' :: t2' ++ [e])%list
        with (t1 ++ (Cmsg Die f' args' :: t2') ++ [e])%list in E.
      rewrite app_assoc in E. apply app_inj_tail in E. destruct E as [E _].
      subst t0. apply Forall_app in Ht. destruct Ht as [_ Ht].
      inversion Ht; subst. discriminate.
  - destruct H.
Qed.

End ViewLaws.

(** ** Further properties of the driver *)

Section ExtraFacts.

Context {X : External}.

Lemma PG_Run_returns out args opts : returns (ProcessGo.Run (Some out) args opts).
Proof.
  intro w. unfold ProcessGo.Run.
  set (o := match opts with None => zeroOptions | Some o => o end).
  destruct (PG_parseOptions_cases out o w) as [[_ [msg Hm]] | [_ Hp]].
  - rewrite (bind_returned _ _ _ _ _ _ Hm). reflexivity.
  - rewrite (bind_returned _ _ _ _ _ _ Hp). cbn [outcome snd].
    destruct (length args =? 0)%nat; [reflexivity|].
    apply PG_Run_paths_returns.
Qed.

Lemma P0_outputTest_dies_last t wo w : dies_last (Part000.outputTest t wo w).
Proof.
  unfold Part000.outputTest. apply dies_last_bind.
  - apply dies_last_when. apply dies_last_bind.
    + apply dies_last_call_WriteFile.
    + intros [err|] w'; [|apply dies_last_ret].
      cbn. exists [], "-> write file %s failed: %s",
        [AString (gotests.Path t); AError err].
      split; [reflexivity | constructor].
  - intros _ w'. apply dies_last_forEach. intros f w''.
    apply dies_last_emit. reflexivity.
Qed.

Lemma P0_generateTests_dies_last path wo opt w :
  dies_last (Part000.generateTests path wo opt w).
Proof.
  unfold Part000.generateTests. apply dies_last_bind.
  - apply dies_last_call_GenerateTests.
  - intros [gts err] w'. apply dies_last_bind.
    + destruct err as [err|]; [|apply dies_last_ret].
      cbn. exists [], "-> generate test failed: %s", [AError err].
      split; [reflexivity | constructor].
    + intros _ w''. apply dies_last_bind.
      * apply dies_last_when. apply dies_last_emit. reflexivity.
      * intros _ w3. apply dies_last_forEach. intros t w4.
        apply P0_outputTest_dies_last.
Qed.

Lemma P0_Run_dies_last out args opts w :
  dies_last (Part000.Run (Some out) args opts w).
Proof.
  unfold Part000.Run. apply dies_last_bind.
  - apply dies_last_emit. reflexivity.
  - intros _ w1.
    set (o := match opts with None => zeroOptions | Some o => o end).
    destruct (P0_parseOptions_cases o w1) as [[_ (f & a & Hm)] | [_ Hp]].
    + rewrite (bind_exited _ _ _ _ _ Hm).
      exists [], f, a. split; [reflexivity | constructor].
    + rewrite (bind_returned _ _ _ _ _ _ Hp). cbn [app].
      rewrite <- result_eta. apply dies_last_bind.
      * apply dies_last_when.
        exists [], "-> please specify a file or directory containing the source",
          []. split; [reflexivity | constructor].
      * intros _ w2. apply dies_last_forEach. intros p w3.
        apply P0_generateTests_dies_last.
Qed.

End ExtraFacts.

(** X2.  Which configuration error is reported.  An inclusion pattern
    that does not compile is reported as the invalid -only pattern with
    the compiler's error, whatever the exclusion pattern is; an exclusion
    pattern that does not compile is reported as the invalid -excl pattern
    when the inclusion pattern is absent or compiles.  In both cases the
    run is that single report. *)
Theorem X2_which_pattern_error_is_reported
  (X : External) (out : Writer) (args : list string) (o : Options)
  (w : World) (e : error) :
  (bad_pattern (OnlyFuncs o) e ->
   ProcessGo.Run (Some out) args (Some o) w =
   ([error_line out ("-> invalid -only regex:" ++ e)], w, Returned tt) /\
   Part000.Run (Some out) args (Some o) w =
   ([CmsgSetStderr (Some out); Cmsg Die "-> invalid -only regex: %s" [AError e]],
    w, Exited)) /\
  (good_pattern (OnlyFuncs o) -> bad_pattern (ExclFuncs o) e ->
   ProcessGo.Run (Some out) args (Some o) w =
   ([error_line out ("-> invalid -excl regex:" ++ e)], w, Returned tt) /\
   Part000.Run (Some out) args (Some o) w =
   ([CmsgSetStderr (Some out); Cmsg Die "-> invalid -excl regex: %s" [AError e]],
    w, Exited)).
Proof.
  split.
  - intros [Hne Hc].
    unfold ProcessGo.Run, Part000.Run, ProcessGo.parseOptions,
      Part000.parseOptions, ProcessGo.parseRegexp, Part000.parseRegexp.
    destruct (String.eqb_spec (OnlyFuncs o) "") as [E | _]; [contradiction|].
    rewrite Hc. split; reflexivity.
  - intros Ho [Hne Hc].
    unfold ProcessGo.Run, Part000.Run, ProcessGo.parseOptions,
      Part000.parseOptions, ProcessGo.parseRegexp, Part000.parseRegexp.
    destruct (String.eqb_spec (ExclFuncs o) "") as [E | _]; [contradiction|].
    rewrite Hc, andb_false_r.
    destruct (String.eqb_spec (OnlyFuncs o) "") as [E | Hno].
    + split; reflexivity.
    + destruct Ho as [Ho | [re Hre]]; [contradiction|].
      rewrite Hre. split; reflexivity.
Qed.

Lemma X2_witness :
  bad_pattern (X := demo) (OnlyFuncs bad_both) "missing closing )" /\
  ProcessGo.Run (X := demo) (Some "out") ["a.go"] (Some bad_both) [] =
  ([error_line (X := demo) "out"
      "-> invalid -only regex:missing closing )"], [], Returned tt) /\
  good_pattern (X := demo) (OnlyFuncs bad_excl) /\
  bad_pattern (X := demo) (ExclFuncs bad_excl) "missing closing )" /\
  Part000.Run (X := demo) (Some "out") ["a.go"] (Some bad_excl) [] =
  ([CmsgSetStderr (X := demo) (Some "out");
    Cmsg Die "-> invalid -excl regex: %s" [AError "missing closing )"]],
   [], Exited).
Proof.
  assert (Hb : bad_pattern (X := demo) "(" "missing closing )").
  { split; [discriminate | reflexivity]. }
  assert (Hg : good_pattern (X := demo) "^Parse").
  { right. exists "^Parse". reflexivity. }
  split; [exact Hb|]. split.
  - exact (proj1 (proj1 (X2_which_pattern_error_is_reported demo "out"
                           ["a.go"] bad_both [] "missing closing )") Hb)).
  - split; [exact Hg|]. split; [exact Hb|].
    exact (proj2 (proj2 (X2_which_pattern_error_is_reported demo "out"
                           ["a.go"] bad_excl [] "missing closing )") Hg Hb)).
Defined.

(** X3.  AllFuncs is used by validation only: it is not among the options
    handed to the engine.  Two [Options] that pass validation and differ
    in nothing but AllFuncs give the same engine options and the same
    run. *)
Theorem X3_AllFuncs_is_not_forwarded
  (X : External) (out : Writer) (args : list string) (o o' : Options)
  (w : World) :
  valid_options o -> valid_options o' ->
  OnlyFuncs o' = OnlyFuncs o -> ExclFuncs o' = ExclFuncs o ->
  ExportedFuncs o' = ExportedFuncs o -> PrintInputs o' = PrintInputs o ->
  Subtests o' = Subtests o -> WriteOutput o' = WriteOutput o ->
  AllowError o' = AllowError o ->
  ProcessGo.parseOptions (Some out) (Some o') w =
    ProcessGo.parseOptions (Some out) (Some o) w /\
  Part000.parseOptions (Some o') w = Part000.parseOptions (Some o) w /\
  ProcessGo.Run (Some out) args (Some o') w = ProcessGo.Run (Some out) args (Some o) w /\
  Part000.Run (Some out) args (Some o') w = Part000.Run (Some out) args (Some o) w.
Proof.
  intros Hv Hv' H1 H2 H3 H4 H5 H6 H7.
  assert (E : engineOptions o' = engineOptions o).
  { unfold engineOptions. rewrite H1, H2, H3, H4, H5, H7. reflexivity. }
  assert (EP : ProcessGo.parseOptions (Some out) (Some o') w =
               ProcessGo.parseOptions (Some out) (Some o) w).
  { rewrite !PG_parseOptions_valid by assumption. rewrite E. reflexivity. }
  assert (EQ : forall w', Part000.parseOptions (Some o') w' =
                          Part000.parseOptions (Some o) w').
  { intro w'. rewrite !P0_parseOptions_valid by assumption.
    rewrite E. reflexivity. }
  split; [exact EP|]. split; [apply EQ|]. split.
  - unfold ProcessGo.Run.
    rewrite !(bind_returned _ _ _ _ _ _ (PG_parseOptions_valid out _ w Hv)).
    rewrite !(bind_returned _ _ _ _ _ _ (PG_parseOptions_valid out _ w Hv')).
    rewrite E, H6. reflexivity.
  - unfold Part000.Run. rewrite !bind_emit.
    rewrite !(bind_returned _ _ _ _ _ _ (P0_parseOptions_valid _ w Hv)).
    rewrite !(bind_returned _ _ _ _ _ _ (P0_parseOptions_valid _ w Hv')).
    rewrite E, H6. reflexivity.
Qed.

Lemma X3_witness :
  valid_options (X := demo) exported_only /\
  valid_options (X := demo) two_modes /\
  ProcessGo.Run (X := demo) (Some "out") ["a.go"] (Some two_modes) [] =
  ProcessGo.Run (X := demo) (Some "out") ["a.go"] (Some exported_only) [] /\
  Part000.Run (X := demo) (Some "out") ["a.go"] (Some two_modes) [] =
  Part000.Run (X := demo) (Some "out") ["a.go"] (Some exported_only) [].
Proof.
  assert (Hv : valid_options (X := demo) exported_only).
  { repeat split;
      [intros (_ & _ & H & _); discriminate H
      | left; reflexivity | left; reflexivity]. }
  assert (Hv' : valid_options (X := demo) two_modes).
  { repeat split;
      [intros (_ & _ & H & _); discriminate H
      | left; reflexivity | left; reflexivity]. }
  split; [exact Hv|]. split; [exact Hv'|].
  exact (proj2 (proj2 (X3_AllFuncs_is_not_forwarded demo "out" ["a.go"]
                         exported_only two_modes [] Hv Hv'
                         eq_refl eq_refl eq_refl eq_refl eq_refl eq_refl
                         eq_refl))).
Defined.

(** X5.  [Run] of part_000 never panics; it ends the process exactly when
    it has reported through [cmsg.Die], and nothing is done after a
    [cmsg.Die]: the report is the last effect of the run. *)
Theorem X5_part000_exits_exactly_on_Die
  (X : External) (out : Writer) (args : list string) (opts : option Options)
  (w : World) :
  outcome (Part000.Run (Some out) args opts w) <> Panicked /\
  (outcome (Part000.Run (Some out) args opts w) = Exited <->
   exists format a,
     In (Cmsg Die format a) (trace (Part000.Run (Some out) args opts w))) /\
  (forall t1 format a t2,
     trace (Part000.Run (Some out) args opts w) =
       (t1 ++ Cmsg Die format a :: t2)%list ->
     t2 = []).
Proof. apply dies_last_spec. apply P0_Run_dies_last. Qed.

(** ** The shape of a run, by write mode *)

Section Shapes.

Context {X : External}.

Lemma flat_map_nil_Forall {A B} (h : A -> list B) (l : list A) :
  Forall (fun e => h e = []) l -> flat_map h l = [].
Proof.
  induction 1 as [|e l He _ IH]; [reflexivity|].
  cbn. rewrite He, IH. reflexivity.
Qed.

Lemma PG_outputTest_trace_mode (P : Event -> Prop) out t wo :
  (forall f a, P (Fprintf out f a)) ->
  (wo = false -> forall d, P (Write out d)) ->
  (wo = true -> forall p d, P (CallWriteFile p d ProcessGo.newFilePerm)) ->
  trace_all P (ProcessGo.outputTest (Some out) t wo).
Proof.
  intros HF HW HWF. unfold ProcessGo.outputTest, fmt_Fprintf, Writer_Write.
  destruct wo.
  - specialize (HWF eq_refl). cbv beta zeta iota. cbn [negb when].
    apply trace_all_bind; auto with go_trace.
    intros [err|]; auto 7 with go_trace.
  - specialize (HW eq_refl). auto 7 with go_trace.
Qed.

(** [generateTests] of process.go first calls the engine; what follows is
    printing and, in write mode, writing files. *)
Lemma PG_generateTests_shape out p wo opt w :
  exists t',
    trace (ProcessGo.generateTests (Some out) p wo opt w) =
      CallGenerateTests p opt :: t' /\
    forall P : Event -> Prop,
      (forall f a, P (Fprintf out f a)) ->
      (wo = false -> forall d, P (Write out d)) ->
      (wo = true ->
       forall p' d, P (CallWriteFile p' d ProcessGo.newFilePerm)) ->
      Forall P t'.
Proof.
  unfold ProcessGo.generateTests.
  destruct (GenerateTests p opt w) as [[gts err] w1] eqn:Hg.
  erewrite bind_returned
    by (unfold call_GenerateTests; rewrite Hg; reflexivity).
  eexists. split; [reflexivity|]. intros P HF HW HWF.
  destruct err as [err|]; [repeat constructor; apply HF|].
  destruct (length gts =? 0)%nat; [repeat constructor; apply HF|].
  apply trace_all_forEach. intro t.
  apply PG_outputTest_trace_mode; assumption.
Qed.

Lemma PG_Run_trace_mode (P : Event -> Prop) out args opts :
  let o := match opts with None => zeroOptions | Some o => o end in
  (forall f a, P (Fprintf out f a)) ->
  (WriteOutput o = false -> forall d, P (Write out d)) ->
  (forall p, P (CallGenerateTests p (engineOptions o))) ->
  (WriteOutput o = true ->
   forall p d, P (CallWriteFile p d ProcessGo.newFilePerm)) ->
  trace_all P (ProcessGo.Run (Some out) args opts).
Proof.
  intros o HF HW HG HWF w. unfold ProcessGo.Run. fold o.
  destruct (PG_parseOptions_cases out o w) as [[_ [msg Hm]] | [_ Hp]].
  - rewrite (bind_returned _ _ _ _ _ _ Hm). repeat constructor. apply HF.
  - rewrite (bind_returned _ _ _ _ _ _ Hp). cbn [app trace fst].
    destruct (length args =? 0)%nat; [repeat constructor; apply HF|].
    unfold ProcessGo.Run_paths. apply trace_all_forEach. intros p w'.
    destruct (PG_generateTests_shape out p (WriteOutput o)
                (engineOptions o) w') as (t' & -> & Ht).
    constructor; [apply HG | apply Ht; assumption].
Qed.

Lemma P0_outputTest_trace_mode (P : Event -> Prop) t wo :
  (forall fn f a, P (Cmsg fn f a)) ->
  (wo = true -> forall p d, P (CallWriteFile p d Part000.newFilePerm)) ->
  trace_all P (Part000.outputTest t wo).
Proof.
  intros HC HWF. unfold Part000.outputTest, Part000.cmsg_Info.
  apply trace_all_bind; [|auto with go_trace].
  destruct wo; [|apply trace_all_ret]. cbn [when]. specialize (HWF eq_refl).
  apply trace_all_bind; auto with go_trace.
  intros [err|]; cbn; unfold Part000.cmsg_Die; auto with go_trace.
Qed.

(** [generateTests] of part_000 first calls the engine; what follows goes
    through [cmsg] and, in write mode, the file system. *)
Lemma P0_generateTests_shape p wo opt w :
  exists t',
    trace (Part000.generateTests p wo opt w) =
      CallGenerateTests p opt :: t' /\
    forall P : Event -> Prop,
      (forall fn f a, P (Cmsg fn f a)) ->
      (wo = true ->
       forall p' d, P (CallWriteFile p' d Part000.newFilePerm)) ->
      Forall P t'.
Proof.
  unfold Part000.generateTests.
  destruct (GenerateTests p opt w) as [[gts err] w1] eqn:Hg.
  erewrite bind_returned
    by (unfold call_GenerateTests; rewrite Hg; reflexivity).
  eexists. split; [reflexivity|]. intros P HC HWF.
  apply trace_all_bind.
  - destruct err as [err|]; cbn; unfold Part000.cmsg_Die;
      auto with go_trace.
  - intros _. unfold Part000.cmsg_Warn.
    apply trace_all_bind; [auto with go_trace|]. intros _.
    apply trace_all_forEach. intro t.
    apply P0_outputTest_trace_mode; assumption.
Qed.

(** [Run] of part_000 first directs [cmsg] to [out]; what follows goes
    through [cmsg], the engine and, in write mode, the file system. *)
Lemma P0_Run_shape out args opts w :
  let o := match opts with None => zeroOptions | Some o => o end in
  exists t',
    trace (Part000.Run (Some out) args opts w) = CmsgSetStderr (Some out) :: t' /\
    forall P : Event -> Prop,
      (forall fn f a, P (Cmsg fn f a)) ->
      (forall p, P (CallGenerateTests p (engineOptions o))) ->
      (WriteOutput o = true ->
       forall p d, P (CallWriteFile p d Part000.newFilePerm)) ->
      Forall P t'.
Proof.
  intros o. unfold Part000.Run. fold o. rewrite bind_emit.
  eexists. split; [reflexivity|]. intros P HC HG HWF.
  destruct (P0_parseOptions_cases o w) as [[_ (f & a & Hm)] | [_ Hp]].
  - rewrite (bind_exited _ _ _ _ _ Hm). repeat constructor. apply HC.
  - rewrite (bind_returned _ _ _ _ _ _ Hp). cbn [app trace fst].
    apply trace_all_bind.
    + unfold Part000.cmsg_Die. auto with go_trace.
    + intros _. unfold Part000.Run_paths. apply trace_all_forEach.
      intros p w'.
      destruct (P0_generateTests_shape p (WriteOutput o)
                  (engineOptions o) w') as (t' & -> & Ht).
      constructor; [apply HG | apply Ht; assumption].
Qed.

Lemma PG_generateTests_engine_calls out p wo opt w :
  engine_calls (trace (ProcessGo.generateTests (Some out) p wo opt w)) = [(p, opt)].
Proof.
  destruct (PG_generateTests_shape out p wo opt w) as (t' & -> & Ht).
  cbn. f_equal. apply flat_map_nil_Forall.
  apply Ht; intros; reflexivity.
Qed.

Lemma P0_generateTests_engine_calls p wo opt w :
  engine_calls (trace (Part000.generateTests p wo opt w)) = [(p, opt)].
Proof.
  destruct (P0_generateTests_shape p wo opt w) as (t' & -> & Ht).
  cbn. f_equal. apply flat_map_nil_Forall.
  apply Ht; intros; reflexivity.
Qed.

Lemma P0_generateTests_no_panic p wo opt w :
  outcome (Part000.generateTests p wo opt w) <> Panicked.
Proof.
  pose proof (P0_generateTests_dies_last p wo opt w) as H.
  unfold dies_last in H. intros E. rewrite E in H. exact H.
Qed.

Lemma flat_map_singleton {A B} (f : A -> B) (l : list A) :
  flat_map (fun x => [f x]) l = map f l.
Proof. induction l as [|x l IH]; [reflexivity|]. cbn. rewrite IH. reflexivity. Qed.

End Shapes.

(** X6.  With options that pass validation, [Run] of process.go calls the
    engine exactly once for every argument, in the order of the arguments
    and every time with the same options, whatever the engine returns and
    whether writing succeeds or not. *)
Theorem X6_process_go_calls_engine_once_per_path
  (X : External) (out : Writer) (args : list string) (o : Options)
  (w : World) :
  valid_options o ->
  engine_calls (trace (ProcessGo.Run (Some out) args (Some o) w)) =
  map (fun p => (p, engineOptions o)) args.
Proof.
  intros Hv. unfold ProcessGo.Run.
  rewrite (bind_returned _ _ _ _ _ _ (PG_parseOptions_valid out o w Hv)).
  cbn [app trace fst].
  destruct args as [|p args]; [reflexivity|].
  cbn [length Nat.eqb]. unfold ProcessGo.Run_paths.
  rewrite <- flat_map_singleton.
  apply (forEach_view_returns _ (fun p => [(p, engineOptions o)])).
  - intros x w'. apply PG_generateTests_engine_calls.
  - intro x. apply PG_generateTests_returns.
Qed.

Lemma X6_witness :
  valid_options (X := demo) (demo_opts true false) /\
  engine_calls
    (trace (ProcessGo.Run (X := demo) (Some "out")
              ["bad.go"; "/ro/a.go"; "empty.go"; "b.go"]
              (Some (demo_opts true false)) [])) =
  [("bad.go", demo_gopt false); ("/ro/a.go", demo_gopt false);
   ("empty.go", demo_gopt false); ("b.go", demo_gopt false)].
Proof.
  assert (Hv : valid_options (X := demo) (demo_opts true false))
    by demo_valid.
  split; [exact Hv|].
  exact (X6_process_go_calls_engine_once_per_path demo "out"
           ["bad.go"; "/ro/a.go"; "empty.go"; "b.go"]
           (demo_opts true false) [] Hv).
Defined.

(** X7.  With options that pass validation, [Run] of part_000 calls the
    engine on the arguments in order, once each and with the same options,
    up to the argument at which it halts: the calls are those of a prefix
    of the arguments, and of all the arguments when the run returns. *)
Theorem X7_part000_calls_engine_on_a_prefix
  (X : External) (out : Writer) (args : list string) (o : Options)
  (w : World) :
  valid_options o ->
  (exists n,
     engine_calls (trace (Part000.Run (Some out) args (Some o) w)) =
     map (fun p => (p, engineOptions o)) (firstn n args)) /\
  (outcome (Part000.Run (Some out) args (Some o) w) = Returned tt ->
   engine_calls (trace (Part000.Run (Some out) args (Some o) w)) =
   map (fun p => (p, engineOptions o)) args).
Proof.
  intros Hv.
  destruct args as [|p args].
  - rewrite (P0_Run_no_args out o w Hv). split.
    + exists 0. reflexivity.
    + discriminate.
  - rewrite (P0_Run_paths_of_Run out (p :: args) o w Hv eq_refl).
    cbn [trace outcome fst snd]. unfold Part000.Run_paths.
    change (engine_calls (CmsgSetStderr (Some out) :: ?t)) with (engine_calls t).
    destruct (forEach_view
                (fun e => match e with
                          | CallGenerateTests p opt => [(p, opt)]
                          | _ => []
                          end)
                (fun p => [(p, engineOptions o)])
                (fun path => Part000.generateTests path (WriteOutput o)
                               (engineOptions o))
                (fun x w' => P0_generateTests_engine_calls x _ _ w')
                (fun x w' => P0_generateTests_no_panic x _ _ w')
                (p :: args) w) as (_ & [n Hn] & Hr).
    split.
    + exists n. unfold engine_calls. rewrite Hn. apply flat_map_singleton.
    + intros E. unfold engine_calls. rewrite (Hr E).
      apply flat_map_singleton.
Qed.

Lemma X7_witness :
  valid_options (X := demo) (demo_opts true false) /\
  (exists n,
     engine_calls
       (trace (Part000.Run (X := demo) (Some "out") ["a.go"; "bad.go"; "b.go"]
                 (Some (demo_opts true false)) [])) =
     map (fun p => (p, engineOptions (X := demo) (demo_opts true false)))
         (firstn n ["a.go"; "bad.go"; "b.go"])) /\
  engine_calls
    (trace (Part000.Run (X := demo) (Some "out") ["a.go"; "empty.go"]
              (Some (demo_opts true false)) [])) =
  [("a.go", demo_gopt false); ("empty.go", demo_gopt false)].
Proof.
  assert (Hv : valid_options (X := demo) (demo_opts true false))
    by demo_valid.
  split; [exact Hv|]. split.
  - exact (proj1 (X7_part000_calls_engine_on_a_prefix demo "out"
                    ["a.go"; "bad.go"; "b.go"] (demo_opts true false) []
                    Hv)).
  - exact (proj2 (X7_part000_calls_engine_on_a_prefix demo "out"
                    ["a.go"; "empty.go"] (demo_opts true false) [] Hv)
             eq_refl).
Defined.

(** X8.  With WriteOutput off, no run of either edition asks the file
    system to write anything. *)
Theorem X8_no_file_is_written_when_write_mode_is_off
  (X : External) (out : Writer) (args : list string) (o : Options)
  (w : World) :
  WriteOutput o = false ->
  Forall no_file_write (trace (ProcessGo.Run (Some out) args (Some o) w)) /\
  Forall no_file_write (trace (Part000.Run (Some out) args (Some o) w)).
Proof.
  intros Hwo. split.
  - apply (PG_Run_trace_mode no_file_write out args (Some o)); cbn.
    + intros; exact I.
    + intros; exact I.
    + intros; exact I.
    + intros E. congruence.
  - destruct (P0_Run_shape out args (Some o) w) as (t' & -> & Ht).
    constructor; [exact I|]. apply Ht; cbn.
    + intros; exact I.
    + intros; exact I.
    + intros E. congruence.
Qed.

Lemma X8_witness :
  WriteOutput (demo_opts false false) = false /\
  Forall (no_file_write (X := demo))
    (trace (ProcessGo.Run (X := demo) (Some "out") ["a.go"; "/ro/b.go"]
              (Some (demo_opts false false)) [])) /\
  Forall (no_file_write (X := demo))
    (trace (Part000.Run (X := demo) (Some "out") ["a.go"; "/ro/b.go"]
              (Some (demo_opts false false)) [])).
Proof.
  split; [reflexivity|].
  exact (X8_no_file_is_written_when_write_mode_is_off demo "out"
           ["a.go"; "/ro/b.go"] (demo_opts false false) [] eq_refl).
Defined.

(** X9.  With WriteOutput on, no run of process.go copies generated code
    to [out]: the code goes to the files only. *)
Theorem X9_process_go_prints_no_code_in_write_mode
  (X : External) (out : Writer) (args : list string) (o : Options)
  (w : World) :
  WriteOutput o = true ->
  Forall no_stream_copy (trace (ProcessGo.Run (Some out) args (Some o) w)).
Proof.
  intros Hwo.
  apply (PG_Run_trace_mode no_stream_copy out args (Some o)); cbn.
  - intros; exact I.
  - intros E. congruence.
  - intros; exact I.
  - intros; exact I.
Qed.

Lemma X9_witness :
  WriteOutput (demo_opts true false) = true /\
  Forall (no_stream_copy (X := demo))
    (trace (ProcessGo.Run (X := demo) (Some "out") ["a.go"; "/ro/b.go"]
              (Some (demo_opts true false)) [])).
Proof.
  split; [reflexivity|].
  exact (X9_process_go_prints_no_code_in_write_mode demo "out"
           ["a.go"; "/ro/b.go"] (demo_opts true false) [] eq_refl).
Defined.

(** X10.  Where the output goes.  Everything process.go prints, status
    lines and generated code alike, it prints on the writer [out] it was
    given.  part_000 never prints directly: it directs [cmsg] to [out]
    once, as the first effect of the run, and from then on only calls
    [cmsg], the engine and the file system. *)
Theorem X10_all_output_goes_to_out
  (X : External) (out : Writer) (args : list string) (opts : option Options)
  (w : World) :
  Forall (prints_on out) (trace (ProcessGo.Run (Some out) args opts w)) /\
  exists t,
    trace (Part000.Run (Some out) args opts w) = CmsgSetStderr (Some out) :: t /\
    Forall through_cmsg t.
Proof.
  split.
  - apply (PG_Run_trace_mode (prints_on out) out args opts); cbn;
      intros; reflexivity || exact I.
  - destruct (P0_Run_shape out args opts w) as (t' & Ht & HP).
    exists t'. split; [exact Ht|].
    apply HP; cbn; intros; exact I.
Qed.

(** ** Handling the generated files of one path *)

Section GeneratedFiles.

Context {X : External}.

Lemma PG_generateTests_files out p wo opt w gts w1 :
  GenerateTests p opt w = ((gts, None), w1) ->
  (length gts =? 0)%nat = false ->
  ProcessGo.generateTests (Some out) p wo opt w =
  (CallGenerateTests p opt ::
     trace (forEach gts (fun t => ProcessGo.outputTest (Some out) t wo) w1),
   world (forEach gts (fun t => ProcessGo.outputTest (Some out) t wo) w1),
   outcome (forEach gts (fun t => ProcessGo.outputTest (Some out) t wo) w1)).
Proof.
  intros Hg Hn. unfold ProcessGo.generateTests.
  erewrite bind_returned
    by (unfold call_GenerateTests; rewrite Hg; reflexivity).
  cbv beta iota zeta. rewrite Hn. reflexivity.
Qed.

Lemma P0_generateTests_files p wo opt w gts w1 :
  GenerateTests p opt w = ((gts, None), w1) ->
  (length gts =? 0)%nat = false ->
  Part000.generateTests p wo opt w =
  (CallGenerateTests p opt ::
     trace (forEach gts (fun t => Part000.outputTest t wo) w1),
   world (forEach gts (fun t => Part000.outputTest t wo) w1),
   outcome (forEach gts (fun t => Part000.outputTest t wo) w1)).
Proof.
  intros Hg Hn. unfold Part000.generateTests.
  erewrite bind_returned
    by (unfold call_GenerateTests; rewrite Hg; reflexivity).
  cbv beta iota zeta. cbn [Part000.whenErr]. rewrite !bind_ret, Hn. cbn [when].
  rewrite !bind_ret. reflexivity.
Qed.

Lemma file_writes_map_lines {A} (f : A -> Event) (l : list A) :
  (forall a, file_writes [f a] = []) -> file_writes (map f l) = [].
Proof.
  intros Hf. apply flat_map_nil_Forall. apply Forall_forall.
  intros e He. apply in_map_iff in He. destruct He as [a [<- _]].
  specialize (Hf a). cbn in Hf. rewrite app_nil_r in Hf. exact Hf.
Qed.

Lemma PG_outputTest_file_writes out t w :
  file_writes (trace (ProcessGo.outputTest (Some out) t true w)) =
  [write_of ProcessGo.newFilePerm t].
Proof.
  destruct (ioutil_WriteFile (gotests.Path t) (gotests.Output t)
              ProcessGo.newFilePerm w) as [[err|] w2] eqn:Hw.
  - rewrite (PG_outputTest_write_failed out t w err w2 Hw). reflexivity.
  - rewrite (PG_outputTest_written out t w w2 Hw). cbn [trace fst].
    change (file_writes (?e :: ?l)) with
      ((match e with
        | CallWriteFile p d m => [(p, d, m)]
        | _ => []
        end) ++ file_writes l)%list.
    rewrite file_writes_map_lines by reflexivity. reflexivity.
Qed.

Lemma P0_outputTest_file_writes t w :
  file_writes (trace (Part000.outputTest t true w)) =
  [write_of Part000.newFilePerm t].
Proof.
  destruct (ioutil_WriteFile (gotests.Path t) (gotests.Output t)
              Part000.newFilePerm w) as [[err|] w2] eqn:Hw.
  - rewrite (P0_outputTest_write_failed t w err w2 Hw). reflexivity.
  - rewrite (P0_outputTest_written t w w2 Hw). cbn [trace fst].
    change (file_writes (?e :: ?l)) with
      ((match e with
        | CallWriteFile p d m => [(p, d, m)]
        | _ => []
        end) ++ file_writes l)%list.
    rewrite file_writes_map_lines by reflexivity. reflexivity.
Qed.

Lemma P0_outputTest_no_panic t wo w :
  outcome (Part000.outputTest t wo w) <> Panicked.
Proof.
  pose proof (P0_outputTest_dies_last t wo w) as H.
  unfold dies_last in H. intros E. rewrite E in H. exact H.
Qed.

Lemma length_nonzero_of_not_nil {A} (l : list A) :
  l <> [] -> (length l =? 0)%nat = false.
Proof. destruct l; [congruence | reflexivity]. Qed.

End GeneratedFiles.

(** X11.  A generated file that cannot be written.  process.go reports
    the failure in one error line, prints no "generated" line for that
    file and goes on with the files after it; part_000 reports the failure
    through [cmsg.Die] and halts, so the files after it are not written. *)
Theorem X11_write_failure_in_each_edition
  (X : External) (out : Writer) (p : string) (opt : gotests.Options Regexp)
  (w w1 : World) (pre : list (gotests.GeneratedTest Function))
  (t : gotests.GeneratedTest Function)
  (rest : list (gotests.GeneratedTest Function)) :
  GenerateTests p opt w = (((pre ++ t :: rest)%list, None), w1) ->
  (forall err w2,
     ioutil_WriteFile (gotests.Path t) (gotests.Output t)
       ProcessGo.newFilePerm
       (world (forEach pre (fun t => ProcessGo.outputTest (Some out) t true) w1)) =
       (Some err, w2) ->
     ProcessGo.generateTests (Some out) p true opt w =
     ((CallGenerateTests p opt ::
       trace (forEach pre (fun t => ProcessGo.outputTest (Some out) t true) w1) ++
       [CallWriteFile (gotests.Path t) (gotests.Output t)
          ProcessGo.newFilePerm;
        Fprintf out ProcessGo.msgFmt
          [AString ProcessGo.msgError; AError err]] ++
       trace (forEach rest (fun t => ProcessGo.outputTest (Some out) t true) w2))
      %list,
      world (forEach rest (fun t => ProcessGo.outputTest (Some out) t true) w2),
      Returned tt)) /\
  (forall t1 w1' err w2,
     forEach pre (fun t => Part000.outputTest t true) w1 =
       (t1, w1', Returned tt) ->
     ioutil_WriteFile (gotests.Path t) (gotests.Output t)
       Part000.newFilePerm w1' = (Some err, w2) ->
     Part000.generateTests p true opt w =
     ((CallGenerateTests p opt :: t1 ++
       [CallWriteFile (gotests.Path t) (gotests.Output t)
          Part000.newFilePerm;
        Cmsg Die "-> write file %s failed: %s"
          [AString (gotests.Path t); AError err]])%list,
      w2, Exited)).
Proof.
  intros Hg. split.
  - intros err w2 Hw.
    rewrite (PG_generateTests_files out p true opt w _ w1 Hg
               (length_app_cons_nonzero pre t rest)).
    assert (Hpre : forEach pre (fun t => ProcessGo.outputTest (Some out) t true) w1 =
                   (trace (forEach pre
                             (fun t => ProcessGo.outputTest (Some out) t true) w1),
                    world (forEach pre
                             (fun t => ProcessGo.outputTest (Some out) t true) w1),
                    Returned tt)).
    { rewrite <- (returns_forEach _ pre
                    (fun t => PG_outputTest_returns out t true) w1).
      apply result_eta. }
    rewrite (forEach_app _ pre (t :: rest) w1 _ _ Hpre).
    rewrite forEach_cons.
    rewrite (bind_returned _ _ _ _ _ _
               (PG_outputTest_write_failed out t _ err w2 Hw)).
    cbn [trace world outcome fst snd].
    rewrite (returns_forEach _ rest
               (fun t => PG_outputTest_returns out t true) w2).
    reflexivity.
  - intros t1 w1' err w2 Hpre Hw.
    rewrite (P0_generateTests_files p true opt w _ w1 Hg
               (length_app_cons_nonzero pre t rest)).
    rewrite (forEach_app _ pre (t :: rest) w1 _ _ Hpre).
    rewrite forEach_cons.
    rewrite (bind_exited _ _ _ _ _
               (P0_outputTest_write_failed t _ err w2 Hw)).
    reflexivity.
Qed.

Lemma X11_witness :
  ProcessGo.generateTests (X := demo_pkg) (Some "out") "pkg" true (demo_gopt false)
    [] =
  ([CallGenerateTests (X := demo_pkg) "pkg" (demo_gopt false);
    CallWriteFile (X := demo_pkg) "a_test.go" demo_output 420%Z;
    info_line (X := demo_pkg) "out" "-> generated: TestA";
    CallWriteFile (X := demo_pkg) "/ro/b_test.go" demo_output 420%Z;
    Fprintf (X := demo_pkg) "out" ProcessGo.msgFmt
      [AString ProcessGo.msgError; AError "read-only file system"];
    CallWriteFile (X := demo_pkg) "c_test.go" demo_output 420%Z;
    info_line (X := demo_pkg) "out" "-> generated: TestC"],
   [("c_test.go", demo_output, 420%Z); ("a_test.go", demo_output, 420%Z)],
   Returned tt) /\
  Part000.generateTests (X := demo_pkg) "pkg" true (demo_gopt false) [] =
  ([CallGenerateTests (X := demo_pkg) "pkg" (demo_gopt false);
    CallWriteFile (X := demo_pkg) "a_test.go" demo_output 420%Z;
    Cmsg Info "-> generated: %s" [AString "TestA"];
    CallWriteFile (X := demo_pkg) "/ro/b_test.go" demo_output 420%Z;
    Cmsg Die "-> write file %s failed: %s"
      [AString "/ro/b_test.go"; AError "read-only file system"]],
   [("a_test.go", demo_output, 420%Z)], Exited).
Proof.
  destruct (X11_write_failure_in_each_edition demo_pkg "out" "pkg"
              (demo_gopt false) [] []
              [demo_file "a_test.go" "A"] (demo_file "/ro/b_test.go" "B")
              [demo_file "c_test.go" "C"] eq_refl) as [H1 H2].
  split.
  - exact (H1 "read-only file system" _ eq_refl).
  - exact (H2 _ _ "read-only file system" _ eq_refl eq_refl).
Defined.

(** X12.  With WriteOutput off and at least one generated file, the
    engine's results are handled in the engine's order and the world is
    left as the engine left it.  process.go prints, for each file, one
    "generated" line per test function and then the rendered bytes;
    part_000 reports one "generated" line per test function. *)
Theorem X12_generated_files_in_order_when_printing
  (X : External) (out : Writer) (p : string) (opt : gotests.Options Regexp)
  (w w1 : World) (gts : list (gotests.GeneratedTest Function)) :
  GenerateTests p opt w = ((gts, None), w1) ->
  gts <> [] ->
  ProcessGo.generateTests (Some out) p false opt w =
  (CallGenerateTests p opt :: flat_map (printed out) gts, w1, Returned tt) /\
  Part000.generateTests p false opt w =
  (CallGenerateTests p opt :: flat_map reported gts, w1, Returned tt).
Proof.
  intros Hg Hne. apply length_nonzero_of_not_nil in Hne. split.
  - rewrite (PG_generateTests_files out p false opt w gts w1 Hg Hne).
    rewrite (forEach_pure (fun t => ProcessGo.outputTest (Some out) t false)
               (printed out) gts w1
               (fun t w' => PG_outputTest_stdout out t w')).
    reflexivity.
  - rewrite (P0_generateTests_files p false opt w gts w1 Hg Hne).
    rewrite (forEach_pure (fun t => Part000.outputTest t false)
               reported gts w1
               (fun t w' => P0_outputTest_stdout t w')).
    reflexivity.
Qed.

Lemma X12_witness :
  ProcessGo.generateTests (X := demo_pkg) (Some "out") "pkg" false (demo_gopt false)
    [] =
  ([CallGenerateTests (X := demo_pkg) "pkg" (demo_gopt false);
    info_line (X := demo_pkg) "out" "-> generated: TestA";
    Write (X := demo_pkg) "out" demo_output;
    info_line (X := demo_pkg) "out" "-> generated: TestB";
    Write (X := demo_pkg) "out" demo_output;
    info_line (X := demo_pkg) "out" "-> generated: TestC";
    Write (X := demo_pkg) "out" demo_output], [], Returned tt) /\
  Part000.generateTests (X := demo_pkg) "pkg" false (demo_gopt false) [] =
  ([CallGenerateTests (X := demo_pkg) "pkg" (demo_gopt false);
    Cmsg Info "-> generated: %s" [AString "TestA"];
    Cmsg Info "-> generated: %s" [AString "TestB"];
    Cmsg Info "-> generated: %s" [AString "TestC"]], [], Returned tt).
Proof.
  apply (X12_generated_files_in_order_when_printing demo_pkg "out" "pkg"
           (demo_gopt false) [] []
           [demo_file "a_test.go" "A"; demo_file "/ro/b_test.go" "B";
            demo_file "c_test.go" "C"] eq_refl).
  discriminate.
Defined.

(** X13.  With WriteOutput on, every generated file of a path is handed to
    the file system exactly once, under its own path, with its own bytes
    and mode 0644, in the engine's order.  process.go does so for all the
    files, whether or not some of the writes fail; part_000 does so for the
    files up to the one at which it halts, and for all of them when it
    returns. *)
Theorem X13_each_generated_file_is_written_once
  (X : External) (out : Writer) (p : string) (opt : gotests.Options Regexp)
  (w w1 : World) (gts : list (gotests.GeneratedTest Function)) :
  GenerateTests p opt w = ((gts, None), w1) ->
  file_writes (trace (ProcessGo.generateTests (Some out) p true opt w)) =
    map (write_of (octal [0; 6; 4; 4]%Z)) gts /\
  (exists n,
     file_writes (trace (Part000.generateTests p true opt w)) =
     map (write_of (octal [0; 6; 4; 4]%Z)) (firstn n gts)) /\
  (outcome (Part000.generateTests p true opt w) = Returned tt ->
   file_writes (trace (Part000.generateTests p true opt w)) =
   map (write_of (octal [0; 6; 4; 4]%Z)) gts).
Proof.
  intros Hg. destruct gts as [|t gts].
  - rewrite (PG_generateTests_empty out p true opt w w1 Hg).
    rewrite (P0_generateTests_empty p true opt w w1 Hg).
    split; [reflexivity|]. split; [exists 0; reflexivity | reflexivity].
  - rewrite (PG_generateTests_files out p true opt w _ w1 Hg eq_refl).
    rewrite (P0_generateTests_files p true opt w _ w1 Hg eq_refl).
    cbn [trace outcome fst snd].
    change (file_writes (CallGenerateTests p opt :: ?l))
      with (file_writes l).
    split.
    + rewrite <- flat_map_singleton.
      apply (forEach_view_returns _
               (fun t => [write_of ProcessGo.newFilePerm t])).
      * intros x w'. apply PG_outputTest_file_writes.
      * intro x. apply PG_outputTest_returns.
    + destruct (forEach_view
                  (fun e => match e with
                            | CallWriteFile p d m => [(p, d, m)]
                            | _ => []
                            end)
                  (fun t => [write_of Part000.newFilePerm t])
                  (fun t => Part000.outputTest t true)
                  (fun x w' => P0_outputTest_file_writes x w')
                  (fun x w' => P0_outputTest_no_panic x true w')
                  (t :: gts) w1) as (_ & [n Hn] & Hr).
      split.
      * exists n. unfold file_writes. rewrite Hn. apply flat_map_singleton.
      * intros E. unfold file_writes. rewrite (Hr E).
        apply flat_map_singleton.
Qed.

Lemma X13_witness :
  file_writes
    (trace (ProcessGo.generateTests (X := demo_pkg) (Some "out") "pkg" true
              (demo_gopt false) [])) =
  [("a_test.go", demo_output, 420%Z); ("/ro/b_test.go", demo_output, 420%Z);
   ("c_test.go", demo_output, 420%Z)] /\
  exists n,
    file_writes
      (trace (Part000.generateTests (X := demo_pkg) "pkg" true
                (demo_gopt false) [])) =
    map (write_of (X := demo_pkg) 420%Z)
      (firstn n [demo_file "a_test.go" "A"; demo_file "/ro/b_test.go" "B";
                 demo_file "c_test.go" "C"]).
Proof.
  destruct (X13_each_generated_file_is_written_once demo_pkg "out" "pkg"
              (demo_gopt false) [] []
              [demo_file "a_test.go" "A"; demo_file "/ro/b_test.go" "B";
               demo_file "c_test.go" "C"] eq_refl) as (H1 & H2 & _).
  split; [exact H1 | exact H2].
Defined.

(** X14.  Runs of process.go compose: with options that pass validation,
    a run on two non-empty lists of arguments put together is the run on
    the first list followed by the run on the second one, started in the
    world the first run left. *)
Theorem X14_process_go_runs_compose
  (X : External) (out : Writer) (a b : list string) (o : Options)
  (w : World) :
  valid_options o -> a <> [] -> b <> [] ->
  ProcessGo.Run (Some out) (a ++ b) (Some o) w =
  ((trace (ProcessGo.Run (Some out) a (Some o) w) ++
    trace (ProcessGo.Run (Some out) b (Some o)
             (world (ProcessGo.Run (Some out) a (Some o) w))))%list,
   world (ProcessGo.Run (Some out) b (Some o)
            (world (ProcessGo.Run (Some out) a (Some o) w))),
   Returned tt).
Proof.
  intros Hv Ha Hb.
  assert (Hab : (length (a ++ b) =? 0)%nat = false).
  { apply length_nonzero_of_not_nil. destruct a; [congruence | discriminate]. }
  rewrite (PG_Run_paths_of_Run out (a ++ b) o w Hv Hab).
  rewrite (PG_Run_paths_of_Run out a o w Hv (length_nonzero_of_not_nil a Ha)).
  rewrite (PG_Run_paths_of_Run out b o _ Hv (length_nonzero_of_not_nil b Hb)).
  unfold ProcessGo.Run_paths at 1.
  rewrite (forEach_app _ a b w _ _
             (PG_Run_paths_eta out (WriteOutput o) (engineOptions o) a w)).
  fold (ProcessGo.Run_paths (Some out) (WriteOutput o) (engineOptions o) b).
  rewrite (PG_Run_paths_returns out (WriteOutput o) (engineOptions o) b).
  reflexivity.
Qed.

Lemma X14_witness :
  valid_options (X := demo) (demo_opts true false) /\
  ProcessGo.Run (X := demo) (Some "out") ["a.go"; "bad.go"; "b.go"]
    (Some (demo_opts true false)) [] =
  ((trace (ProcessGo.Run (X := demo) (Some "out") ["a.go"; "bad.go"]
             (Some (demo_opts true false)) []) ++
    trace (ProcessGo.Run (X := demo) (Some "out") ["b.go"]
             (Some (demo_opts true false))
             [("a.go_test.go", demo_output, 420%Z)]))%list,
   [("b.go_test.go", demo_output, 420%Z);
    ("a.go_test.go", demo_output, 420%Z)],
   Returned tt).
Proof.
  assert (Hv : valid_options (X := demo) (demo_opts true false))
    by demo_valid.
  split; [exact Hv|].
  apply (X14_process_go_runs_compose demo "out" ["a.go"; "bad.go"] ["b.go"]
           (demo_opts true false) [] Hv); discriminate.
Defined.

(** X15.  Runs of part_000 compose up to the halt: with options that pass
    validation and a non-empty list of arguments, if the run on that list
    halts, arguments added after it change nothing; if it returns, the run
    on the longer list is that run followed by the run on the added
    arguments, without a second redirection of [cmsg]. *)
Theorem X15_part000_runs_compose_until_halt
  (X : External) (out : Writer) (a b : list string) (o : Options)
  (w : World) :
  valid_options o -> a <> [] ->
  (outcome (Part000.Run (Some out) a (Some o) w) = Exited ->
   Part000.Run (Some out) (a ++ b) (Some o) w = Part000.Run (Some out) a (Some o) w) /\
  (outcome (Part000.Run (Some out) a (Some o) w) = Returned tt -> b <> [] ->
   exists tb,
     trace (Part000.Run (Some out) b (Some o)
              (world (Part000.Run (Some out) a (Some o) w))) =
       CmsgSetStderr (Some out) :: tb /\
     Part000.Run (Some out) (a ++ b) (Some o) w =
     ((trace (Part000.Run (Some out) a (Some o) w) ++ tb)%list,
      world (Part000.Run (Some out) b (Some o)
               (world (Part000.Run (Some out) a (Some o) w))),
      outcome (Part000.Run (Some out) b (Some o)
                 (world (Part000.Run (Some out) a (Some o) w))))).
Proof.
  intros Hv Ha.
  assert (Hab : (length (a ++ b) =? 0)%nat = false).
  { apply length_nonzero_of_not_nil. destruct a; [congruence | discriminate]. }
  rewrite (P0_Run_paths_of_Run out (a ++ b) o w Hv Hab).
  rewrite (P0_Run_paths_of_Run out a o w Hv (length_nonzero_of_not_nil a Ha)).
  cbn [trace world outcome fst snd]. unfold Part000.Run_paths.
  split.
  - intros E.
    pose proof (result_eta
                  (forEach a (fun path => Part000.generateTests path
                                (WriteOutput o) (engineOptions o)) w)) as Hr.
    rewrite E in Hr.
    rewrite (forEach_app_exited _ a b w _ _ Hr).
    cbn [trace world outcome fst snd]. rewrite E. reflexivity.
  - intros E Hb.
    rewrite (P0_Run_paths_of_Run out b o _ Hv
               (length_nonzero_of_not_nil b Hb)).
    cbn [trace world outcome fst snd]. unfold Part000.Run_paths.
    eexists. split; [reflexivity|].
    pose proof (result_eta
                  (forEach a (fun path => Part000.generateTests path
                                (WriteOutput o) (engineOptions o)) w)) as Hr.
    rewrite E in Hr.
    rewrite (forEach_app _ a b w _ _ Hr).
    reflexivity.
Qed.

Lemma X15_witness :
  valid_options (X := demo) (demo_opts true false) /\
  Part000.Run (X := demo) (Some "out") ["a.go"; "bad.go"; "b.go"]
    (Some (demo_opts true false)) [] =
  Part000.Run (X := demo) (Some "out") ["a.go"; "bad.go"]
    (Some (demo_opts true false)) [] /\
  exists tb,
    trace (Part000.Run (X := demo) (Some "out") ["b.go"]
             (Some (demo_opts true false))
             (world (Part000.Run (X := demo) (Some "out") ["a.go"; "empty.go"]
                       (Some (demo_opts true false)) []))) =
      CmsgSetStderr (X := demo) (Some "out") :: tb /\
    Part000.Run (X := demo) (Some "out") (["a.go"; "empty.go"] ++ ["b.go"])%list
      (Some (demo_opts true false)) [] =
    ((trace (Part000.Run (X := demo) (Some "out") ["a.go"; "empty.go"]
               (Some (demo_opts true false)) []) ++ tb)%list,
     world (Part000.Run (X := demo) (Some "out") ["b.go"]
              (Some (demo_opts true false))
              (world (Part000.Run (X := demo) (Some "out") ["a.go"; "empty.go"]
                        (Some (demo_opts true false)) []))),
     outcome (Part000.Run (X := demo) (Some "out") ["b.go"]
                (Some (demo_opts true false))
                (world (Part000.Run (X := demo) (Some "out") ["a.go"; "empty.go"]
                          (Some (demo_opts true false)) [])))).
Proof.
  assert (Hv : valid_options (X := demo) (demo_opts true false))
    by demo_valid.
  split; [exact Hv|]. split.
  - apply (proj1 (X15_part000_runs_compose_until_halt demo "out"
                    ["a.go"; "bad.go"] ["b.go"] (demo_opts true false) []
                    Hv ltac:(discriminate))).
    reflexivity.
  - apply (proj2 (X15_part000_runs_compose_until_halt demo "out"
                    ["a.go"; "empty.go"] ["b.go"] (demo_opts true false) []
                    Hv ltac:(discriminate))).
    + reflexivity.
    + discriminate.
Defined.

(** ** The two editions side by side *)

Section Editions.

Context {X : External}.

Lemma calls_app (t1 t2 : list Event) :
  calls (t1 ++ t2) = (calls t1 ++ calls t2)%list.
Proof. apply filter_app. Qed.

Lemma calls_cons (e : Event) (t : list Event) :
  calls (e :: t) = if is_call e then e :: calls t else calls t.
Proof. reflexivity. Qed.

Lemma calls_map_lines {A} (f : A -> Event) (l : list A) :
  (forall a, is_call (f a) = false) -> calls (map f l) = [].
Proof.
  intros Hf. induction l as [|a l IH]; [reflexivity|].
  cbn. rewrite Hf. exact IH.
Qed.

Lemma follows_forEach {A} (bodyG bodyP : A -> Go unit) l :
  (forall x, follows (bodyG x) (bodyP x)) ->
  follows (forEach l bodyG) (forEach l bodyP).
Proof.
  intros Hb. induction l as [|x xs IH]; intros w tp w' HP.
  - cbn in HP. injection HP as <- <-. exists []. split; reflexivity.
  - rewrite forEach_cons in HP.
    destruct (bodyP x w) as [[tx wx] [[]| |]] eqn:Hx.
    + rewrite (bind_returned _ _ _ _ _ _ Hx) in HP.
      injection HP as <- Hw Ho.
      destruct (Hb x w tx wx Hx) as (tgx & Hgx & Hcx).
      assert (Hxs : forEach xs bodyP wx =
                    (trace (forEach xs bodyP wx), w', Returned tt)).
      { rewrite <- Hw, <- Ho. apply result_eta. }
      destruct (IH wx _ w' Hxs) as (tgs & Hgs & Hcs).
      exists (tgx ++ tgs)%list. split.
      * rewrite forEach_cons, (bind_returned _ _ _ _ _ _ Hgx), Hgs.
        reflexivity.
      * rewrite !calls_app, Hcx, Hcs. reflexivity.
    + rewrite (bind_exited _ _ _ _ _ Hx) in HP. discriminate.
    + unfold bind in HP. rewrite Hx in HP. discriminate.
Qed.

Lemma follows_outputTest out t wo :
  follows (ProcessGo.outputTest (Some out) t wo) (Part000.outputTest t wo).
Proof.
  intros w tp w' HP. destruct wo.
  - destruct (ioutil_WriteFile (gotests.Path t) (gotests.Output t)
                Part000.newFilePerm w) as [[err|] w2] eqn:Hw.
    + rewrite (P0_outputTest_write_failed t w err w2 Hw) in HP.
      discriminate.
    + rewrite (P0_outputTest_written t w w2 Hw) in HP.
      injection HP as <- <-.
      eexists. split; [apply (PG_outputTest_written out t w w2 Hw)|].
      rewrite !calls_cons. cbn [is_call].
      rewrite !calls_map_lines by reflexivity. reflexivity.
  - rewrite P0_outputTest_stdout in HP. injection HP as <- <-.
    eexists. split; [apply PG_outputTest_stdout|].
    rewrite calls_app, !calls_map_lines by reflexivity. reflexivity.
Qed.

Lemma follows_generateTests out p wo opt :
  follows (ProcessGo.generateTests (Some out) p wo opt)
          (Part000.generateTests p wo opt).
Proof.
  intros w tp w' HP.
  destruct (GenerateTests p opt w) as [[gts [err|]] w1] eqn:Hg.
  - rewrite (P0_generateTests_error p wo opt w gts err w1 Hg) in HP.
    discriminate.
  - destruct gts as [|t gts].
    + rewrite (P0_generateTests_empty p wo opt w w1 Hg) in HP.
      injection HP as <- <-.
      eexists. split; [apply (PG_generateTests_empty out p wo opt w w1 Hg)|].
      reflexivity.
    + rewrite (P0_generateTests_files p wo opt w _ w1 Hg eq_refl) in HP.
      injection HP as <- Hw Ho.
      assert (Hl : forEach (t :: gts) (fun t => Part000.outputTest t wo) w1 =
                   (trace (forEach (t :: gts)
                             (fun t => Part000.outputTest t wo) w1),
                    w', Returned tt)).
      { rewrite <- Hw, <- Ho. apply result_eta. }
      destruct (follows_forEach
                  (fun t => ProcessGo.outputTest (Some out) t wo)
                  (fun t => Part000.outputTest t wo) (t :: gts)
                  (fun x => follows_outputTest out x wo) w1 _ w' Hl)
        as (tg & Hgl & Hc).
      exists (CallGenerateTests p opt :: tg). split.
      * rewrite (PG_generateTests_files out p wo opt w _ w1 Hg eq_refl), Hgl.
        reflexivity.
      * rewrite !calls_cons. cbn [is_call]. f_equal. exact Hc.
Qed.

End Editions.

(** X16.  The two editions agree on runs without failure: whenever [Run]
    of part_000 returns, [Run] of process.go on the same input makes the
    same calls to the engine and to the file system, in the same order, and
    leaves the same world. *)
Theorem X16_editions_agree_when_part000_returns
  (X : External) (out : Writer) (args : list string) (opts : option Options)
  (w : World) :
  outcome (Part000.Run (Some out) args opts w) = Returned tt ->
  calls (trace (ProcessGo.Run (Some out) args opts w)) =
    calls (trace (Part000.Run (Some out) args opts w)) /\
  world (ProcessGo.Run (Some out) args opts w) =
    world (Part000.Run (Some out) args opts w).
Proof.
  set (o := match opts with None => zeroOptions | Some o => o end).
  assert (EP : Part000.Run (Some out) args opts w = Part000.Run (Some out) args (Some o) w)
    by (destruct opts; reflexivity).
  assert (EG : ProcessGo.Run (Some out) args opts w =
               ProcessGo.Run (Some out) args (Some o) w)
    by (destruct opts; reflexivity).
  rewrite EP, EG. clear EP EG. intros E.
  destruct (P0_parseOptions_cases o w) as [[Hc _] | [Hv _]].
  - destruct (P0_Run_config_error out args o w Hc) as (f & a & H).
    rewrite H in E. discriminate.
  - destruct args as [|p args].
    + rewrite (P0_Run_no_args out o w Hv) in E. discriminate.
    + rewrite (P0_Run_paths_of_Run out (p :: args) o w Hv eq_refl) in E |- *.
      rewrite (PG_Run_paths_of_Run out (p :: args) o w Hv eq_refl).
      cbn [trace world outcome fst snd] in E |- *.
      pose proof (result_eta (Part000.Run_paths (WriteOutput o)
                                (engineOptions o) (p :: args) w)) as Hr.
      rewrite E in Hr.
      destruct (follows_forEach
                  (fun path => ProcessGo.generateTests (Some out) path
                                 (WriteOutput o) (engineOptions o))
                  (fun path => Part000.generateTests path
                                 (WriteOutput o) (engineOptions o))
                  (p :: args)
                  (fun x => follows_generateTests out x _ _) w _ _ Hr)
        as (tg & Hg & Hc).
      unfold ProcessGo.Run_paths. rewrite Hg.
      cbn [trace world fst snd]. split; [|reflexivity].
      rewrite Hc. reflexivity.
Qed.

Lemma X16_witness :
  outcome (Part000.Run (X := demo_pkg) (Some "out") ["a.go"; "empty.go"; "b.go"]
             (Some (demo_opts true false)) []) = Returned tt /\
  calls (trace (ProcessGo.Run (X := demo_pkg) (Some "out")
                  ["a.go"; "empty.go"; "b.go"]
                  (Some (demo_opts true false)) [])) =
  [CallGenerateTests (X := demo_pkg) "a.go" (demo_gopt false);
   CallWriteFile (X := demo_pkg) "a.go_test.go" demo_output 420%Z;
   CallGenerateTests (X := demo_pkg) "empty.go" (demo_gopt false);
   CallGenerateTests (X := demo_pkg) "b.go" (demo_gopt false);
   CallWriteFile (X := demo_pkg) "b.go_test.go" demo_output 420%Z] /\
  world (ProcessGo.Run (X := demo_pkg) (Some "out") ["a.go"; "empty.go"; "b.go"]
           (Some (demo_opts true false)) []) =
  [("b.go_test.go", demo_output, 420%Z);
   ("a.go_test.go", demo_output, 420%Z)].
Proof.
  split; [reflexivity|].
  exact (X16_editions_agree_when_part000_returns demo_pkg "out"
           ["a.go"; "empty.go"; "b.go"] (Some (demo_opts true false)) []
           eq_refl).
Defined.

(** ** A nil writer, and the text of the reports *)

(** A text without [%] and no operands: [fmt.Sprintf] prints the text as
    it is; nothing, and in particular no line end, is put after it. *)
Lemma fmt_Sprintf_plain (s : string) :
  no_percent s = true -> fmt_Sprintf s [] = Some s.
Proof.
  induction s as [|c s IH]; [reflexivity|].
  cbn [no_percent fmt_Sprintf]. intros H.
  apply andb_true_iff in H. destruct H as [Hc Hs].
  apply negb_true_iff in Hc. rewrite Hc, (IH Hs). reflexivity.
Qed.

Lemma append_empty_r_text (s : string) : (s ++ "")%string = s.
Proof. induction s as [|c s IH]; [reflexivity|]. cbn. rewrite IH. reflexivity. Qed.

(** In process.go the report of a generation error is the error text
    alone: printed on its own it leaves exactly that text on [out]. *)
Lemma PG_generation_error_text (X : External) (out : Writer) (path : string)
  (wo : bool) (opt : gotests.Options Regexp) (w w2 : World)
  (gts : list (gotests.GeneratedTest Function)) (err : error) :
  GenerateTests path opt w = ((gts, Some err), w2) ->
  no_percent err = true ->
  out_text (trace (ProcessGo.generateTests (Some out) path wo opt w)) =
  Some err.
Proof.
  intros Hg Hp.
  rewrite (PG_generateTests_error out path wo opt w gts err w2 Hg).
  cbn [trace fst out_text]. rewrite (fmt_Sprintf_plain err Hp).
  rewrite append_empty_r_text. reflexivity.
Qed.

(** With a nil writer and nil options, process.go panics as soon as it
    reports the configuration error, before anything is printed. *)
Lemma PG_Run_nil_out_nil_options (X : External) (args : list string)
  (w : World) :
  ProcessGo.Run None args None w = ([], w, Panicked).
Proof. reflexivity. Qed.

(** C10 as stated fails for a nil [out]: with nil options process.go
    reaches [fmt.Fprintf(out, ...)] in [parseOptions], which dereferences
    the nil writer. *)
Lemma C10_counterexample :
  ProcessGo.Run (X := demo) None ["a.go"] None [] = ([], [], Panicked).
Proof. reflexivity. Qed.

(** C7.  In process.go an outcome does not always get a status line of its
    own.  A generation error is printed by [fmt.Fprintf(out, err.Error())]:
    the bare error text, with no line end, so that the next report goes on
    in the same line.  Here the engine fails on two paths and finds no
    tests in a third: three outcomes, three reports, and one line of text
    on [out]. *)
Theorem C7_process_go_error_reports_share_a_line :
  let r := ProcessGo.Run (X := demo) (Some "out")
             ["bad.go"; "bad.go"; "empty.go"]
             (Some (demo_opts false false)) [] in
  status_lines (trace r) =
  [Fprintf (X := demo) "out" "parse error" [];
   Fprintf (X := demo) "out" "parse error" [];
   info_line (X := demo) "out" "-> no tests generated for: empty.go"] /\
  out_text (trace r) =
  Some ("parse error" ++ "parse error" ++
        esc ++ "[0;32m[INFO]" ++ tab ++ esc ++
        "[m-> no tests generated for: empty.go" ++ nl) /\
  option_map text_lines (out_text (trace r)) =
  Some ["parse errorparse error" ++
        esc ++ "[0;32m[INFO]" ++ tab ++ esc ++
        "[m-> no tests generated for: empty.go"].
Proof. repeat split. Qed.
